(** * galaxy.py: a report-backed object model, embedded and checked

    The module wraps one "full universe report" fetched through the
    [request] collaborator.  [Galaxy] owns the report, [Star] and [Fleet]
    are views into it.  The embedding follows the Python text of
    [galaxy.py] statement by statement:

    - Python values are the inductive [value]; exceptions are [exn];
    - a bare name is resolved the way Python resolves it (function locals,
      then module globals, then builtins, else [NameError]);
    - [Galaxy] objects are mutable and shared, so they live in a heap and
      are handled through references; every effectful method is a function
      [world -> result A * world], and the world survives an exception;
    - floats are IEEE binary64 numbers, as [spec_float] with the rounding
      functions of the standard library's [SpecFloat]. *)

From Stdlib Require Import ZArith List String Ascii Bool Lia.
From Stdlib Require Import SpecFloat.
Import ListNotations.

Set Warnings "-register-all".
Local Open Scope string_scope.
Local Open Scope Z_scope.

(** ** Python values *)

(** Keys of the mappings found in a parsed report. *)
Inductive key : Type :=
| KInt (z : Z)
| KStr (s : string).

Inductive value : Type :=
| VNone
| VBool (b : bool)
| VInt (z : Z)
| VFloat (f : spec_float)
| VStr (s : string)
| VList (l : list value)
| VDict (d : list (key * value))   (* a report object: mapping with attribute access *)
| VGalaxy (r : nat)                (* reference to a Galaxy object of the heap *)
| VGlobal (name : string)          (* object bound at module level: class or module *)
| VBuiltin (name : string)         (* builtin function or type, such as [id] *)
| VBound (name : string).          (* bound method *)

Inductive exn : Type :=
| NameError (name : string)
| AttributeError (name : string)
| KeyError (k : value)
| IndexError
| TypeError
| ValueError
| OverflowError
| RecursionError.

Inductive result (A : Type) : Type :=
| Ok (a : A)
| Err (e : exn).

Arguments Ok {A} a.
Arguments Err {A} e.

Definition rbind {A B : Type} (r : result A) (k : A -> result B) : result B :=
  match r with
  | Ok a => k a
  | Err e => Err e
  end.

Declare Scope py_scope.
Delimit Scope py_scope with py.
Notation "'let*' x ':=' e 'in' k" := (rbind e (fun x => k))
  (at level 10, x name, e at level 100, k at level 200) : py_scope.
Local Open Scope py_scope.

(** ** Name resolution *)

(** Names bound by the module's top level statements: the two imports and
    the five class statements, plus the names every module has. *)
Definition module_globals : list string :=
  ["math"; "request"; "Galaxy"; "_HasGalaxy"; "_HasData"; "Fleet"; "Star";
   "__name__"; "__doc__"; "__file__"; "__package__"; "__builtins__"].

(** Builtin functions and types. *)
Definition builtins : list string :=
  ["abs"; "all"; "any"; "bin"; "bool"; "bytearray"; "bytes"; "callable";
   "chr"; "classmethod"; "compile"; "complex"; "delattr"; "dict"; "dir";
   "divmod"; "enumerate"; "eval"; "filter"; "float"; "format"; "frozenset";
   "getattr"; "globals"; "hasattr"; "hash"; "help"; "hex"; "id"; "input";
   "int"; "isinstance"; "issubclass"; "iter"; "len"; "list"; "locals";
   "map"; "max"; "memoryview"; "min"; "next"; "object"; "oct"; "open";
   "ord"; "pow"; "print"; "property"; "range"; "repr"; "reversed"; "round";
   "set"; "setattr"; "slice"; "sorted"; "staticmethod"; "str"; "sum";
   "super"; "tuple"; "type"; "vars"; "zip"; "__import__";
   "cmp"; "xrange"; "unicode"; "long"; "basestring"; "raw_input"; "reduce"].

Fixpoint mem (name : string) (l : list string) : bool :=
  match l with
  | [] => false
  | x :: l' => String.eqb name x || mem name l'
  end.

Fixpoint assoc {A : Type} (name : string) (l : list (string * A)) : option A :=
  match l with
  | [] => None
  | (x, a) :: l' => if String.eqb name x then Some a else assoc name l'
  end.

(** Evaluation of a bare name that the enclosing function neither takes as
    a parameter nor assigns: Python looks it up in the module globals, then
    in the builtins.  (The local variables of a function are binders of the
    embedding.)  A name bound in a class body, such as [aliases], or stored
    on [self], such as [game_number], is not in scope this way. *)
Definition load_global (name : string) : result value :=
  if mem name module_globals then Ok (VGlobal name)
  else if mem name builtins then Ok (VBuiltin name)
  else Err (NameError name).

(** A call [Name(...)] of a class the module does not define: the callee
    name is loaded first, and nothing is modelled past a successful load. *)
Definition call_undefined (name : string) : result value :=
  let* _ := load_global name in Err TypeError.

(** ** Floats: IEEE binary64 *)

Definition prec : Z := 53.
Definition emax : Z := 1024.

Definition fsub : spec_float -> spec_float -> spec_float := SFsub prec emax.
Definition fadd : spec_float -> spec_float -> spec_float := SFadd prec emax.
Definition fmul : spec_float -> spec_float -> spec_float := SFmul prec emax.
Definition fsqrt : spec_float -> spec_float := SFsqrt prec emax.

(** The integer [z] rounded to a float. *)
Definition float_of_Z (z : Z) : spec_float := binary_normalize prec emax z 0 false.

Definition is_finite (f : spec_float) : bool :=
  match f with
  | S754_zero _ | S754_finite _ _ _ => true
  | _ => false
  end.

Definition is_infinite (f : spec_float) : bool :=
  match f with
  | S754_infinity _ => true
  | _ => false
  end.

(** The integer a float is equal to, if any. *)
Definition float_to_Z_exact (f : spec_float) : option Z :=
  match f with
  | S754_zero _ => Some 0
  | S754_finite s m (Zneg p) =>
      if Zpos m mod 2 ^ Zpos p =? 0
      then Some (cond_Zopp s (Zpos m / 2 ^ Zpos p)) else None
  | S754_finite s m e => Some (cond_Zopp s (Zpos m) * 2 ^ e)
  | _ => None
  end.

(** [x ** 2] on a float: the square, and [OverflowError] when the square of
    a finite number is out of range. *)
Definition py_pow2 (x : spec_float) : result spec_float :=
  let r := fmul x x in
  if is_finite x && is_infinite r then Err OverflowError else Ok r.

(** [math.sqrt]: a domain error on a negative argument. *)
Definition math_sqrt (x : spec_float) : result spec_float :=
  match x with
  | S754_finite true _ _ | S754_infinity true => Err ValueError
  | _ => Ok (fsqrt x)
  end.

(** [math.ceil]: the least integer not below the float; infinities and NaN
    have none.  (Python 3 returns this integer as an [int]; Python 2 returns
    the same number as a float.) *)
Definition math_ceil (x : spec_float) : result Z :=
  match x with
  | S754_zero _ => Ok 0
  | S754_infinity _ => Err OverflowError
  | S754_nan => Err ValueError
  | S754_finite s m (Zneg p) => Ok (- ((- cond_Zopp s (Zpos m)) / 2 ^ Zpos p))
  | S754_finite s m e => Ok (cond_Zopp s (Zpos m) * 2 ^ e)
  end.

(** ** Operations on values *)

(** Truth value of an object, as [if] and [not] take it. *)
Definition truthy (v : value) : bool :=
  match v with
  | VNone => false
  | VBool b => b
  | VInt z => negb (z =? 0)
  | VFloat (S754_zero _) => false
  | VStr s => negb (String.eqb s "")
  | VList [] => false
  | VDict [] => false
  | _ => true
  end.

(** [v == z] for an integer literal [z]. *)
Definition py_eq_int (v : value) (z : Z) : bool :=
  match v with
  | VInt z' => z' =? z
  | VBool b => Z.b2z b =? z
  | VFloat f =>
      match float_to_Z_exact f with
      | Some z' => z' =? z
      | None => false
      end
  | _ => false
  end.

(** [v == s] for a string literal [s]. *)
Definition py_eq_str (v : value) (s : string) : bool :=
  match v with
  | VStr s' => String.eqb s' s
  | _ => false
  end.

Definition key_eqb (k1 k2 : key) : bool :=
  match k1, k2 with
  | KInt a, KInt b => a =? b
  | KStr a, KStr b => String.eqb a b
  | _, _ => false
  end.

Fixpoint lookup (k : key) (d : list (key * value)) : option value :=
  match d with
  | [] => None
  | (k', v) :: d' => if key_eqb k k' then Some v else lookup k d'
  end.

(** The key of a report mapping that an index expression can hit:
    [Ok None] for a hashable object equal to no integer and no string,
    [TypeError] for an unhashable one. *)
Definition as_key (v : value) : result (option key) :=
  match v with
  | VInt z => Ok (Some (KInt z))
  | VBool b => Ok (Some (KInt (Z.b2z b)))
  | VStr s => Ok (Some (KStr s))
  | VFloat f => Ok (option_map KInt (float_to_Z_exact f))
  | VList _ | VDict _ => Err TypeError
  | _ => Ok None
  end.

Definition value_of_key (k : key) : value :=
  match k with
  | KInt z => VInt z
  | KStr s => VStr s
  end.

(** [seq[i]] on a list, negative indices counting from the end. *)
Definition list_index (l : list value) (i : Z) : result value :=
  let n := Z.of_nat (List.length l) in
  let j := if i <? 0 then i + n else i in
  if (j <? 0) || (n <=? j) then Err IndexError
  else match nth_error l (Z.to_nat j) with
       | Some v => Ok v
       | None => Err IndexError
       end.

(** [obj[k]]. *)
Definition py_getitem (obj k : value) : result value :=
  match obj with
  | VDict d =>
      let* ok := as_key k in
      match ok with
      | Some k' =>
          match lookup k' d with
          | Some v => Ok v
          | None => Err (KeyError k)
          end
      | None => Err (KeyError k)
      end
  | VList l =>
      match k with
      | VInt i => list_index l i
      | VBool b => list_index l (Z.b2z b)
      | _ => Err TypeError
      end
  | _ => Err TypeError
  end.

(** Names a mapping answers itself, before its keys are tried. *)
Definition dict_methods : list string :=
  ["clear"; "copy"; "fromkeys"; "get"; "has_key"; "items"; "iteritems";
   "iterkeys"; "itervalues"; "keys"; "pop"; "popitem"; "setdefault";
   "update"; "values"].

(** Modelled from the spec: the type of the report objects that [request]
    returns is declared outside [galaxy.py].  The module reads them both as
    [obj.name] and as [obj[name]].  Attribute access yields the value stored
    under the name and [None] when the name is absent: the spec has
    [turn_based] and [visible] be false, not fail, on absent data.  Item
    access on an absent key fails ([py_getitem]). *)
Definition obj_getattr (obj : value) (name : string) : result value :=
  match obj with
  | VDict d =>
      if mem name dict_methods then Ok (VBound name)
      else match lookup (KStr name) d with
           | Some v => Ok v
           | None => Ok VNone
           end
  | _ => Err (AttributeError name)
  end.

(** [d.items()]. *)
Definition dict_items (obj : value) : result (list (value * value)) :=
  match obj with
  | VDict d => Ok (map (fun kv => (value_of_key (fst kv), snd kv)) d)
  | _ => Err (AttributeError "items")
  end.

(** [name in d]. *)
Definition py_contains (obj : value) (name : string) : result bool :=
  match obj with
  | VDict d => Ok (match lookup (KStr name) d with Some _ => true | None => false end)
  | VList l => Ok (existsb (fun v => py_eq_str v name) l)
  | _ => Err TypeError
  end.

(** [for x in obj]: the elements iterated over. *)
Definition py_iter (obj : value) : result (list value) :=
  match obj with
  | VList l => Ok l
  | VDict d => Ok (map (fun kv => value_of_key (fst kv)) d)
  | VStr s => Ok (map (fun c => VStr (String c EmptyString)) (list_ascii_of_string s))
  | _ => Err TypeError
  end.

(** ** The world: Galaxy objects and the calls made so far *)

Record GalaxyObj : Type := mkGalaxy {
  game_number : value;
  cookies : value;
  _report : value      (* the class attribute [_report = None] until assigned *)
}.

(** What an execution does that the claims count: entries into
    [update_state] and calls of the [request] collaborator. *)
Inductive event : Type :=
| CallUpdateState (self : nat)
| CallRequest (path : string) (kwargs : list (string * value)).

Record world : Type := mkWorld {
  heap : list GalaxyObj;
  trace : list event
}.

Definition M (A : Type) : Type := world -> result A * world.

Definition ret {A : Type} (a : A) : M A := fun w => (Ok a, w).

Definition bind {A B : Type} (m : M A) (k : A -> M B) : M B :=
  fun w =>
    match m w with
    | (Ok a, w') => k a w'
    | (Err e, w') => (Err e, w')
    end.

Definition lift {A : Type} (r : result A) : M A := fun w => (r, w).

Notation "x <- e ;; k" := (bind e (fun x => k))
  (at level 61, e at next level, right associativity) : py_scope.

Definition emit (ev : event) : M unit :=
  fun w => (Ok tt, mkWorld (heap w) (trace w ++ [ev])).

Definition alloc (g : GalaxyObj) : M value :=
  fun w => (Ok (VGalaxy (List.length (heap w))), mkWorld (heap w ++ [g]) (trace w)).

Definition get_report (self : nat) : M value :=
  fun w =>
    match nth_error (heap w) self with
    | Some g => (Ok (_report g), w)
    | None => (Err (AttributeError "_report"), w)
    end.

Fixpoint update_nth {A : Type} (n : nat) (f : A -> A) (l : list A) : list A :=
  match l, n with
  | [], _ => []
  | x :: l', O => f x :: l'
  | x :: l', S n' => x :: update_nth n' f l'
  end.

Definition set_report (self : nat) (r : value) : M unit :=
  fun w =>
    (Ok tt,
     mkWorld (update_nth self (fun g => mkGalaxy (game_number g) (cookies g) r) (heap w))
             (trace w)).

Fixpoint mapM {A B : Type} (f : A -> M B) (l : list A) : M (list B) :=
  match l with
  | [] => ret []
  | a :: l' => b <- f a ;; bs <- mapM f l' ;; ret (b :: bs)
  end.

(** Number of calls of [request] in a trace. *)
Fixpoint fetches (t : list event) : nat :=
  match t with
  | [] => O
  | CallRequest _ _ :: t' => S (fetches t')
  | _ :: t' => fetches t'
  end.

(** Number of entries into [update_state] of the Galaxy [g] in a trace. *)
Fixpoint updates (g : nat) (t : list event) : nat :=
  match t with
  | [] => O
  | CallUpdateState g' :: t' => (if Nat.eqb g g' then 1 else 0) + updates g t'
  | _ :: t' => updates g t'
  end.

Inductive klass : Type := Fleet | Star.

(** A [Fleet] or [Star] object: its class and the two attributes that
    [__init__] stores on it. *)
Record entity : Type := mkEntity {
  e_class : klass;
  galaxy : value;
  data : value
}.

Section Galaxy.

(** The [request] collaborator (HTTP transport, outside the module): its
    answer to a call, given the calls made before. *)
Variable request : list event -> string -> list (string * value) -> result value.

Definition call_request (path : string) (kwargs : list (string * value)) : M value :=
  fun w =>
    (request (trace w) path kwargs,
     mkWorld (heap w) (trace w ++ [CallRequest path kwargs])).

(** *** class Galaxy *)

Definition Galaxy___init__ (game_number cookies : value) : M value :=
  alloc (mkGalaxy game_number cookies VNone).

Definition Galaxy_update_state (self : nat) : M unit :=
  _ <- emit (CallUpdateState self) ;;
  _ <- lift (load_global "request") ;;
  game_number <- lift (load_global "game_number") ;;
  cookies <- lift (load_global "cookies") ;;
  r <- call_request "order"
         [("order", VStr "full_universe_report");
          ("game_number", game_number); ("cookies", cookies)] ;;
  set_report self r.

Definition Galaxy_report (self : nat) : M value :=
  r <- get_report self ;;
  _ <- (if negb (truthy r) then Galaxy_update_state self else ret tt) ;;
  get_report self.

Definition Galaxy___getattr__ (self : nat) (attr : string) : M value :=
  r <- Galaxy_report self ;;
  lift (py_getitem r (VStr attr)).

Definition Galaxy_game_state (self : nat) : M string :=
  r <- Galaxy_report self ;;
  game_over <- lift (obj_getattr r "game_over") ;;
  if truthy game_over then ret "finished" else
  r <- Galaxy_report self ;;
  started <- lift (obj_getattr r "started") ;;
  if negb (truthy started) then ret "not started" else
  r <- Galaxy_report self ;;
  paused <- lift (obj_getattr r "paused") ;;
  if truthy paused then ret "paused" else
  ret "running".

Definition Galaxy_turn_based (self : nat) : M bool :=
  r <- Galaxy_report self ;;
  flag <- lift (obj_getattr r "turn_based") ;;
  ret (py_eq_int flag 1).

(** *** class _HasGalaxy *)

Definition has_key (name : string) (kwargs : list (string * value)) : bool :=
  match assoc name kwargs with
  | Some _ => true
  | None => false
  end.

(** [kwargs.pop(name)]. *)
Definition pop (name : string) (kwargs : list (string * value)) : result value :=
  match assoc name kwargs with
  | Some v => Ok v
  | None => Err (KeyError (VStr name))
  end.

(** Returns what is stored as [self.galaxy]. *)
Definition _HasGalaxy___init__ (kwargs : list (string * value)) : M value :=
  if has_key "game_number" kwargs || has_key "cookies" kwargs then
    game_number <- lift (pop "game_number" kwargs) ;;
    cookies <- lift (pop "cookies" kwargs) ;;
    _ <- lift (load_global "Galaxy") ;;
    Galaxy___init__ game_number cookies
  else
    lift (pop "galaxy" kwargs).

(** [g.report] for the object stored as [self.galaxy]. *)
Definition report_of (g : value) : M value :=
  match g with
  | VGalaxy r => Galaxy_report r
  | _ => lift (obj_getattr g "report")
  end.

(** *** class Fleet, class Star: construction *)

Definition Fleet___init__ (fleet_id : value) (kwargs : list (string * value)) : M entity :=
  g <- _HasGalaxy___init__ kwargs ;;
  r <- report_of g ;;
  fleets <- lift (obj_getattr r "fleets") ;;
  d <- lift (py_getitem fleets fleet_id) ;;
  ret (mkEntity Fleet g d).

Definition Star___init__ (star_id : value) (kwargs : list (string * value)) : M entity :=
  g <- _HasGalaxy___init__ kwargs ;;
  r <- report_of g ;;
  stars <- lift (obj_getattr r "stars") ;;
  d <- lift (py_getitem stars star_id) ;;
  ret (mkEntity Star g d).

(** The dict comprehension of [Galaxy.fleets]: one entry per item of
    [report.fleets], in order. *)
Definition Galaxy_fleets (self : nat) : M (list (value * entity)) :=
  r <- Galaxy_report self ;;
  fleets <- lift (obj_getattr r "fleets") ;;
  items <- lift (dict_items fleets) ;;
  mapM (fun item : value * value =>
          let (fleet_id, fleet_data) := item in
          _ <- lift (load_global "Fleet") ;;
          id <- lift (load_global "id") ;;
          f <- Fleet___init__ id [("galaxy", VGalaxy self)] ;;
          ret (fleet_id, f))
       items.

End Galaxy.

(** ** Fleet and Star: attributes *)

Section Entities.

(** The builtin [float] applied to a string: the float the text denotes, or
    nothing when the text is not a number. *)
Variable float_of_str : string -> option spec_float.

(** The builtin [float]. *)
Definition py_float (v : value) : result spec_float :=
  match v with
  | VFloat f => Ok f
  | VInt z =>
      let f := float_of_Z z in
      if is_infinite f then Err OverflowError else Ok f
  | VBool b => Ok (float_of_Z (Z.b2z b))
  | VStr s =>
      match float_of_str s with
      | Some f => Ok f
      | None => Err ValueError
      end
  | _ => Err TypeError
  end.

Definition Fleet_aliases : list (string * string) :=
  [("owner", "player"); ("name", "n"); ("ships", "st"); ("fleet_id", "uid")].

Definition Star_aliases : list (string * string) :=
  [("owner", "player"); ("name", "n"); ("star_id", "uid"); ("economy", "e");
   ("carriers", "c"); ("garrison", "g"); ("industry", "i"); ("resources", "r");
   ("natural_resources", "nr"); ("natural", "nr"); ("science", "s");
   ("ships", "st")].

(** The class attribute [aliases] as a Python dict. *)
Definition aliases (k : klass) : value :=
  VDict (map (fun a => (KStr (fst a), VStr (snd a)))
             match k with Fleet => Fleet_aliases | Star => Star_aliases end).

Definition Fleet_waypoints (self : entity) : result value :=
  let* p := obj_getattr (data self) "p" in
  let* stars := py_iter p in
  match stars with
  | [] => Ok (VList [])
  | star :: _ =>
      let* _ := load_global "Star" in
      let* star_id := load_global "star_id" in
      Err TypeError
  end.

Definition Fleet_player (self : entity) : result value :=
  call_undefined "Player".

Definition Fleet_x (self : entity) : result spec_float :=
  let* v := obj_getattr (data self) "x" in py_float v.
Definition Fleet_y (self : entity) : result spec_float :=
  let* v := obj_getattr (data self) "y" in py_float v.
Definition Fleet_lx (self : entity) : result spec_float :=
  let* v := obj_getattr (data self) "lx" in py_float v.
Definition Fleet_ly (self : entity) : result spec_float :=
  let* v := obj_getattr (data self) "ly" in py_float v.

Definition Star_player (self : entity) : result value :=
  let* puid := obj_getattr (data self) "puid" in
  if py_eq_int puid (-1) then Ok VNone else call_undefined "Player".

Definition Star_visible (self : entity) : result bool :=
  let* v := obj_getattr (data self) "v" in
  Ok (py_eq_str v "1").

Definition Star_x (self : entity) : result spec_float :=
  let* v := obj_getattr (data self) "x" in py_float v.
Definition Star_y (self : entity) : result spec_float :=
  let* v := obj_getattr (data self) "y" in py_float v.

Definition as_float (r : result spec_float) : result value :=
  let* f := r in Ok (VFloat f).

Definition as_bool (r : result bool) : result value :=
  let* b := r in Ok (VBool b).

(** Ordinary attribute lookup on a Fleet or Star: what the instance and its
    classes define under [attr], evaluated; [None] when they define nothing
    under that name.  Properties are run, methods come back bound. *)
Definition find_attribute (self : entity) (attr : string) : option (result value) :=
  if String.eqb attr "galaxy" then Some (Ok (galaxy self))
  else if String.eqb attr "data" then Some (Ok (data self))
  else if String.eqb attr "aliases" then Some (Ok (aliases (e_class self)))
  else if mem attr ["__init__"; "__getattr__"; "__class__"; "__dict__"; "__doc__";
                    "__module__"; "__weakref__"]
  then Some (Ok (VBound attr))
  else
    match e_class self with
    | Fleet =>
        if String.eqb attr "waypoints" then Some (Fleet_waypoints self)
        else if String.eqb attr "player" then Some (Fleet_player self)
        else if String.eqb attr "x" then Some (as_float (Fleet_x self))
        else if String.eqb attr "y" then Some (as_float (Fleet_y self))
        else if String.eqb attr "lx" then Some (as_float (Fleet_lx self))
        else if String.eqb attr "ly" then Some (as_float (Fleet_ly self))
        else None
    | Star =>
        if String.eqb attr "player" then Some (Star_player self)
        else if String.eqb attr "visible" then Some (as_bool (Star_visible self))
        else if String.eqb attr "x" then Some (as_float (Star_x self))
        else if String.eqb attr "y" then Some (as_float (Star_y self))
        else if String.eqb attr "distance" then Some (Ok (VBound "distance"))
        else None
    end.

(** *** class _HasData *)

(** [__getattr__], with [getattr] the builtin applied to [self]. *)
Definition _HasData___getattr__
    (getattr : entity -> string -> result value)
    (self : entity) (attr : string) : result value :=
  let* aliases := load_global "aliases" in
  let* found := py_contains aliases attr in
  if found then
    let* target := py_getitem aliases (VStr attr) in
    match target with
    | VStr name => getattr self name
    | _ => Err TypeError
    end
  else py_getitem (data self) (VStr attr).

(** [getattr(self, attr)], equally [self.attr]: ordinary lookup first, and
    [__getattr__] when it finds nothing or a property raises
    [AttributeError].  [depth] bounds the nesting of calls, as the
    interpreter's recursion limit does. *)
Fixpoint getattr (depth : nat) (self : entity) (attr : string) : result value :=
  match depth with
  | O => Err RecursionError
  | S depth' =>
      match find_attribute self attr with
      | Some (Err (AttributeError _)) | None =>
          _HasData___getattr__ (getattr depth') self attr
      | Some r => r
      end
  end.

(** *** Star.distance *)

(** [other.x] and [other.y] for the argument of [distance]. *)
Definition coord_x (other : entity) : result spec_float :=
  match e_class other with Fleet => Fleet_x other | Star => Star_x other end.
Definition coord_y (other : entity) : result spec_float :=
  match e_class other with Fleet => Fleet_y other | Star => Star_y other end.

Definition Star_distance (self other : entity) (as_level : bool) : result value :=
  let* sx := Star_x self in
  let* ox := coord_x other in
  let* dx2 := py_pow2 (fsub sx ox) in
  let* sy := Star_y self in
  let* oy := coord_y other in
  let* dy2 := py_pow2 (fsub sy oy) in
  let* dist := math_sqrt (fadd dx2 dy2) in
  if negb as_level then Ok (VFloat dist) else
  let* c := math_ceil dist in
  let level := c - 3 in
  let level := if level <? 1 then 1 else level in
  Ok (VInt level).

(** *** The distance as the specification words it *)

(** Euclidean distance between the points [(x1, y1)] and [(x2, y2)]. *)
Definition euclidean (x1 y1 x2 y2 : spec_float) : result spec_float :=
  let* dx2 := py_pow2 (fsub x1 x2) in
  let* dy2 := py_pow2 (fsub y1 y2) in
  math_sqrt (fadd dx2 dy2).

(** Range level of a distance: its ceiling less 3, and at least 1. *)
Definition range_level (dist : spec_float) : result Z :=
  let* c := math_ceil dist in Ok (Z.max 1 (c - 3)).

End Entities.

(** ** class Galaxy: the derived collections and times *)

(** The builtin [len]. *)
Definition py_len (obj : value) : result nat :=
  match obj with
  | VList l => Ok (List.length l)
  | VDict d => Ok (List.length d)
  | VStr s => Ok (String.length s)
  | _ => Err TypeError
  end.

(** [range(n)]. *)
Definition py_range (n : nat) : list Z := map Z.of_nat (seq 0 n).

Definition fdiv : spec_float -> spec_float -> spec_float := SFdiv prec emax.

(** [v / 1000.0]: an integer is converted to a float first, which fails
    when it is out of range; nothing but a number can be divided. *)
Definition div_1000 (v : value) : result spec_float :=
  match v with
  | VFloat f => Ok (fdiv f (float_of_Z 1000))
  | VInt z =>
      let f := float_of_Z z in
      if is_infinite f then Err OverflowError else Ok (fdiv f (float_of_Z 1000))
  | VBool b => Ok (fdiv (float_of_Z (Z.b2z b)) (float_of_Z 1000))
  | _ => Err TypeError
  end.

Section GalaxyCollections.

Variable request : list event -> string -> list (string * value) -> result value.

(** The list comprehension of [Galaxy.players]: one [Player(...)] per index
    below [len(report.players)]; the class [Player] is defined nowhere. *)
Definition Galaxy_players (self : nat) : M (list value) :=
  r <- Galaxy_report request self ;;
  players <- lift (obj_getattr r "players") ;;
  n <- lift (py_len players) ;;
  mapM (fun player_id : Z => lift (call_undefined "Player")) (py_range n).

(** The list comprehension of [Galaxy.stars]. *)
Definition Galaxy_stars (self : nat) : M (list entity) :=
  r <- Galaxy_report request self ;;
  stars <- lift (obj_getattr r "stars") ;;
  n <- lift (py_len stars) ;;
  mapM (fun star_id : Z =>
          _ <- lift (load_global "Star") ;;
          Star___init__ request (VInt star_id) [("galaxy", VGalaxy self)])
       (py_range n).

(** [self.players[self.report.admin]]. *)
Definition Galaxy_admin (self : nat) : M value :=
  players <- Galaxy_players self ;;
  r <- Galaxy_report request self ;;
  admin <- lift (obj_getattr r "admin") ;;
  lift (py_getitem (VList players) admin).

(** [self.players[self.report.player_uid]]. *)
Definition Galaxy_player (self : nat) : M value :=
  players <- Galaxy_players self ;;
  r <- Galaxy_report request self ;;
  player_uid <- lift (obj_getattr r "player_uid") ;;
  lift (py_getitem (VList players) player_uid).

Definition Galaxy_now (self : nat) : M spec_float :=
  r <- Galaxy_report request self ;;
  now <- lift (obj_getattr r "now") ;;
  lift (div_1000 now).

Definition Galaxy_start_time (self : nat) : M spec_float :=
  r <- Galaxy_report request self ;;
  start_time <- lift (obj_getattr r "start_time") ;;
  lift (div_1000 start_time).

End GalaxyCollections.

(** ** Vocabulary of the statements *)

(** An operation that only adds to the world: Galaxy objects at the end of
    the heap, the objects already there left as they are, and events other
    than calls of [request] at the end of the trace. *)
Definition quiet {A : Type} (m : M A) : Prop :=
  forall w, exists l t,
    heap (snd (m w)) = (heap w ++ l)%list
    /\ trace (snd (m w)) = (trace w ++ t)%list
    /\ fetches t = 0%nat.

(** The alias names of a class, and its float accessors. *)
Definition alias_names (k : klass) : list string :=
  map fst match k with Fleet => Fleet_aliases | Star => Star_aliases end.

Definition float_accessors (k : klass) : list string :=
  match k with
  | Fleet => ["x"; "y"; "lx"; "ly"]
  | Star => ["x"; "y"]
  end.

(** The value a report object stores under [name], [None] when absent. *)
Definition field (d : list (key * value)) (name : string) : value :=
  match lookup (KStr name) d with
  | Some v => v
  | None => VNone
  end.

(** A float that is NaN or carries the sign [+]. *)
Definition unsigned (f : spec_float) : Prop :=
  match f with
  | S754_zero s | S754_infinity s | S754_finite s _ _ => s = false
  | S754_nan => True
  end.

Definition is_nan (f : spec_float) : bool :=
  match f with
  | S754_nan => true
  | _ => false
  end.

(** [v1 == v2] on the numbers that [distance] returns.  Floats compare by
    value, so a NaN is not equal to itself. *)
Definition py_eq_num (v1 v2 : value) : bool :=
  match v1, v2 with
  | VFloat f1, VFloat f2 => SFeqb f1 f2
  | VInt z1, VInt z2 => z1 =? z2
  | VInt z, VFloat f | VFloat f, VInt z =>
      match float_to_Z_exact f with
      | Some z' => z' =? z
      | None => false
      end
  | _, _ => false
  end.

(** ** Sample worlds *)

(** A report with one visible fleet, numbered 7, and two stars. *)
Definition sample_star (x y v : string) : value :=
  VDict [(KStr "n", VStr "Sol"); (KStr "x", VStr x); (KStr "y", VStr y);
         (KStr "v", VStr v); (KStr "puid", VInt (-1))].

Definition sample_report : value :=
  VDict [(KStr "fleets", VDict [(KInt 7, VDict [(KStr "n", VStr "Armada"); (KStr "uid", VInt 7)])]);
         (KStr "stars", VList [sample_star "0" "0" "1"; sample_star "3" "4" "0"]);
         (KStr "game_over", VBool true); (KStr "started", VBool true);
         (KStr "paused", VBool true); (KStr "turn_based", VInt 1)].

(** A [request] that answers every call with [sample_report]. *)
Definition sample_request : list event -> string -> list (string * value) -> result value :=
  fun _ _ _ => Ok sample_report.

(** A [float] that reads no string at all. *)
Definition no_float_of_str : string -> option spec_float := fun _ => None.

Definition empty_world : world := mkWorld [] [].

(** The world after [Galaxy(1, 'c')]. *)
Definition new_galaxy_world : world :=
  mkWorld [mkGalaxy (VInt 1) (VStr "c") VNone] [].

(** A world whose only Galaxy holds [sample_report]. *)
Definition sample_world : world :=
  mkWorld [mkGalaxy (VInt 1) (VStr "c") sample_report] [].

Definition credentials : list (string * value) :=
  [("game_number", VInt 1); ("cookies", VStr "c")].

(** A star at integer coordinates. *)
Definition star_at (x y : Z) : entity :=
  mkEntity Star (VGalaxy 0)
    (VDict [(KStr "n", VStr "Sol"); (KStr "x", VInt x); (KStr "y", VInt y)]).

(** What the claim on construction from credentials asks of a constructor:
    it hands back the entity and has, by then, neither entered
    [update_state] nor called [request]. *)
Definition constructed_lazily (init : M entity) (w : world) : Prop :=
  exists e w', init w = (Ok e, w') /\ trace w' = trace w.

(** What the constructors do instead: by the time the constructor is left,
    the private Galaxy made of the credentials [gn] and [ck] stands in the
    heap and its [update_state] has been entered. *)
Definition constructed_eagerly (init : M entity) (gn ck : value) (w : world) : Prop :=
  let n := List.length (heap w) in
  let w' := snd (init w) in
  option_map game_number (nth_error (heap w') n) = Some gn
  /\ option_map cookies (nth_error (heap w') n) = Some ck
  /\ exists t, trace w' = (trace w ++ CallUpdateState n :: t)%list.

(** A report with two players, three stars, no visible fleet and the two
    timestamps. *)
Definition quiet_report_sample : value :=
  VDict [(KStr "players", VList [VDict [(KStr "uid", VInt 0)]; VDict [(KStr "uid", VInt 1)]]);
         (KStr "stars", VList [sample_star "0" "0" "1"; sample_star "3" "4" "0";
                               sample_star "1" "1" "1"]);
         (KStr "fleets", VDict []);
         (KStr "admin", VInt 0); (KStr "player_uid", VInt 1);
         (KStr "now", VInt 1620000000000); (KStr "start_time", VStr "1620000000000")].

(** A world whose only Galaxy holds [quiet_report_sample]. *)
Definition quiet_world : world :=
  mkWorld [mkGalaxy (VInt 1) (VStr "c") quiet_report_sample] [].

(** A [float] that reads the one string ["1.5"]. *)
Definition sample_float_of_str : string -> option spec_float :=
  fun s => if String.eqb s "1.5" then Some (fdiv (float_of_Z 3) (float_of_Z 2)) else None.

(** A fleet with two waypoints and an owner. *)
Definition sample_fleet : entity :=
  mkEntity Fleet (VGalaxy 0)
    (VDict [(KStr "n", VStr "Armada"); (KStr "puid", VInt 2);
            (KStr "x", VStr "1.5"); (KStr "lx", VStr "1.5");
            (KStr "p", VList [VInt 1; VInt 2])]).

(** * Properties *)

(** ** Floats: sign symmetry of the operations *)

Lemma binary_round_aux_negb (s : bool) (m e : Z) (l : location) :
  binary_round_aux prec emax (negb s) m e l
  = SFopp (binary_round_aux prec emax s m e l).
Proof.
  unfold binary_round_aux.
  destruct (shr_fexp prec emax m e l) as [mrs e'].
  destruct (shr_fexp prec emax _ e' loc_Exact) as [mrs' e''].
  destruct (shr_m mrs'); simpl; try reflexivity.
  destruct (_ <=? _); reflexivity.
Qed.

Lemma binary_normalize_opp (m e : Z) :
  binary_normalize prec emax (- m) e false
  = SFopp (binary_normalize prec emax m e false)
  \/ (m = 0).
Proof.
  destruct m as [|p|p]; simpl.
  - right; reflexivity.
  - left. unfold binary_round.
    destruct (shl_align p e _) as [mz ez].
    apply (binary_round_aux_negb false).
  - left. unfold binary_round.
    destruct (shl_align p e _) as [mz ez].
    rewrite (binary_round_aux_negb true). simpl.
    destruct (binary_round_aux prec emax true (Z.pos mz) ez loc_Exact) as [[]|[]| |[] ? ?];
      reflexivity.
Qed.

(** Swapping the operands of a subtraction flips the sign of the result,
    except that [x - x] is [+0] both ways. *)
Lemma fsub_swap (x y : spec_float) :
  fsub y x = SFopp (fsub x y)
  \/ (fsub y x = S754_zero false /\ fsub x y = S754_zero false).
Proof.
  destruct x as [sx|sx| |sx mx ex], y as [sy|sy| |sy my ey];
    try (left; reflexivity);
    try (left; destruct sx; reflexivity);
    try (left; destruct sy; reflexivity);
    try (destruct sx, sy; simpl; auto; fail).
  unfold fsub, SFsub. rewrite (Z.min_comm ey ex).
  set (ez := Z.min ex ey).
  set (a := cond_Zopp sx (Z.pos (fst (shl_align mx ex ez)))).
  set (b := cond_Zopp sy (Z.pos (fst (shl_align my ey ez)))).
  replace (Z.sub b a) with (- (Z.sub a b)) by lia.
  destruct (binary_normalize_opp (Z.sub a b) ez) as [H|H].
  - left; exact H.
  - right. rewrite H. split; reflexivity.
Qed.

Lemma fmul_opp_opp (x : spec_float) : fmul (SFopp x) (SFopp x) = fmul x x.
Proof. destruct x as [[]|[]| |[] m e]; reflexivity. Qed.

Lemma is_finite_opp (x : spec_float) : is_finite (SFopp x) = is_finite x.
Proof. destruct x; reflexivity. Qed.

Lemma py_pow2_opp (x : spec_float) : py_pow2 (SFopp x) = py_pow2 x.
Proof. unfold py_pow2. rewrite fmul_opp_opp, is_finite_opp. reflexivity. Qed.

Lemma py_pow2_fsub_swap (x y : spec_float) :
  py_pow2 (fsub y x) = py_pow2 (fsub x y).
Proof.
  destruct (fsub_swap x y) as [H|[H1 H2]].
  - rewrite H. apply py_pow2_opp.
  - rewrite H1, H2. reflexivity.
Qed.

Lemma binary_round_aux_unsigned (m e : Z) (l : location) :
  unsigned (binary_round_aux prec emax false m e l).
Proof.
  unfold binary_round_aux.
  destruct (shr_fexp prec emax m e l) as [mrs e'].
  destruct (shr_fexp prec emax _ e' loc_Exact) as [mrs' e''].
  destruct (shr_m mrs'); simpl; try reflexivity; try exact I.
  destruct (_ <=? _); reflexivity.
Qed.

Lemma fmul_self_unsigned (x : spec_float) : unsigned (fmul x x).
Proof.
  destruct x as [[]|[]| |s m e]; simpl; try reflexivity; try exact I.
  replace (xorb s s) with false by (destruct s; reflexivity).
  apply binary_round_aux_unsigned.
Qed.

Lemma fadd_unsigned (x y : spec_float) :
  unsigned x -> unsigned y -> unsigned (fadd x y).
Proof.
  destruct x as [sx|sx| |sx mx ex], y as [sy|sy| |sy my ey]; simpl;
    intros Hx Hy; subst; simpl; try reflexivity; try exact I.
  unfold binary_round.
  destruct (shl_align _ _ _) as [mz ez].
  apply binary_round_aux_unsigned.
Qed.

Lemma math_sqrt_unsigned (x : spec_float) :
  unsigned x -> math_sqrt x = Ok (fsqrt x).
Proof. destruct x as [s|s| |s m e]; simpl; intros H; subst; reflexivity. Qed.

Lemma py_pow2_Ok (x r : spec_float) :
  py_pow2 x = Ok r -> r = fmul x x.
Proof.
  unfold py_pow2. destruct (is_finite x && is_infinite (fmul x x)); congruence.
Qed.


Lemma euclidean_sym (x1 y1 x2 y2 : spec_float) :
  euclidean x1 y1 x2 y2 = euclidean x2 y2 x1 y1.
Proof.
  unfold euclidean.
  rewrite (py_pow2_fsub_swap x1 x2), (py_pow2_fsub_swap y1 y2). reflexivity.
Qed.

(** ** Floats: no NaN out of numbers *)

Lemma shr_1_nonneg (mrs : shr_record) : 0 <= shr_m mrs -> 0 <= shr_m (shr_1 mrs).
Proof.
  destruct mrs as [m r s]. simpl.
  destruct m as [|[p|p|]|[p|p|]]; simpl; lia.
Qed.

Lemma iter_shr_1_nonneg (p : positive) (mrs : shr_record) :
  0 <= shr_m mrs -> 0 <= shr_m (iter_pos shr_1 p mrs).
Proof.
  revert mrs. induction p as [p IH|p IH|]; intros mrs H; simpl.
  - apply IH, IH, shr_1_nonneg, H.
  - apply IH, IH, H.
  - apply shr_1_nonneg, H.
Qed.

Lemma shr_fexp_nonneg (m e : Z) (l : location) :
  0 <= m -> 0 <= shr_m (fst (shr_fexp prec emax m e l)).
Proof.
  intros H. unfold shr_fexp, shr.
  assert (H0 : 0 <= shr_m (shr_record_of_loc m l)) by (destruct l as [|[]]; exact H).
  destruct (fexp prec emax (Zdigits2 m + e) - e); simpl; try exact H0.
  apply iter_shr_1_nonneg, H0.
Qed.

Lemma round_nearest_even_nonneg (m : Z) (l : location) :
  0 <= m -> 0 <= round_nearest_even m l.
Proof.
  intros H. destruct l as [|[]]; simpl; try lia.
  destruct (Z.even m); lia.
Qed.

Lemma binary_round_aux_number (s : bool) (m e : Z) (l : location) :
  0 <= m -> is_nan (binary_round_aux prec emax s m e l) = false.
Proof.
  intros H. unfold binary_round_aux.
  pose proof (shr_fexp_nonneg m e l H) as H1.
  destruct (shr_fexp prec emax m e l) as [mrs e']. simpl in H1.
  pose proof (shr_fexp_nonneg _ e' loc_Exact
                (round_nearest_even_nonneg _ (loc_of_shr_record mrs) H1)) as H2.
  destruct (shr_fexp prec emax _ e' loc_Exact) as [mrs' e'']. simpl in H2.
  destruct (shr_m mrs'); try reflexivity; [|lia].
  destruct (_ <=? _); reflexivity.
Qed.

Lemma binary_normalize_number (m e : Z) :
  is_nan (binary_normalize prec emax m e false) = false.
Proof.
  destruct m as [|p|p]; simpl; try reflexivity; unfold binary_round;
    destruct (shl_align _ _ _) as [mz ez]; apply binary_round_aux_number; lia.
Qed.

Lemma fsub_finite_number (x y : spec_float) :
  is_finite x = true -> is_finite y = true -> is_nan (fsub x y) = false.
Proof.
  destruct x as [sx|sx| |sx mx ex], y as [sy|sy| |sy my ey]; try discriminate;
    intros _ _; try reflexivity.
  - destruct sx, sy; reflexivity.
  - apply binary_normalize_number.
Qed.

Lemma fmul_self_number (x : spec_float) :
  is_nan x = false -> is_nan (fmul x x) = false.
Proof.
  destruct x as [s|s| |s m e]; try discriminate; intros _; try reflexivity.
  apply binary_round_aux_number. lia.
Qed.

Lemma fadd_unsigned_number (x y : spec_float) :
  unsigned x -> unsigned y ->
  is_nan x = false -> is_nan y = false -> is_nan (fadd x y) = false.
Proof.
  destruct x as [sx|sx| |sx mx ex], y as [sy|sy| |sy my ey]; simpl;
    intros Hx Hy; subst; try discriminate; intros _ _; try reflexivity.
  apply binary_normalize_number.
Qed.

Lemma fsqrt_unsigned_number (x : spec_float) :
  unsigned x -> is_nan x = false -> is_nan (fsqrt x) = false.
Proof.
  destruct x as [s|s| |s m e]; simpl; intros Hx; subst; try discriminate;
    intros _; try reflexivity.
  unfold SFsqrt_core_binary.
  set (m' := match _ - _ with Z.pos _ => _ | _ => _ end).
  assert (Hq : 0 <= fst (Z.sqrtrem m')).
  { unfold Z.sqrtrem. destruct m' as [|p|p]; simpl; try lia.
    destruct (Pos.sqrtrem p) as [q [|r|]]; simpl; lia. }
  destruct (Z.sqrtrem m') as [q r]. simpl in Hq.
  apply binary_round_aux_number, Hq.
Qed.

(** From finite positions the distance, when there is one, is a number. *)
Lemma euclidean_number (x1 y1 x2 y2 dist : spec_float) :
  is_finite x1 = true -> is_finite y1 = true ->
  is_finite x2 = true -> is_finite y2 = true ->
  euclidean x1 y1 x2 y2 = Ok dist -> is_nan dist = false.
Proof.
  intros F1 F2 F3 F4. unfold euclidean.
  destruct (py_pow2 (fsub x1 x2)) as [dx2|e] eqn:Ex; [|discriminate].
  destruct (py_pow2 (fsub y1 y2)) as [dy2|e] eqn:Ey; [|discriminate].
  cbn [rbind].
  apply py_pow2_Ok in Ex, Ey.
  assert (Ux : unsigned dx2) by (rewrite Ex; apply fmul_self_unsigned).
  assert (Uy : unsigned dy2) by (rewrite Ey; apply fmul_self_unsigned).
  assert (Nx : is_nan dx2 = false)
    by (rewrite Ex; apply fmul_self_number, fsub_finite_number; assumption).
  assert (Ny : is_nan dy2 = false)
    by (rewrite Ey; apply fmul_self_number, fsub_finite_number; assumption).
  rewrite math_sqrt_unsigned by (apply fadd_unsigned; assumption).
  intros H. injection H as <-.
  apply fsqrt_unsigned_number.
  - apply fadd_unsigned; assumption.
  - apply fadd_unsigned_number; assumption.
Qed.

(** A number is equal to itself. *)
Lemma SFeqb_refl (f : spec_float) : is_nan f = false -> SFeqb f f = true.
Proof.
  destruct f as [s|s| |s m e]; try discriminate; intros _; unfold SFeqb; simpl.
  - reflexivity.
  - destruct s; reflexivity.
  - rewrite Z.compare_refl, Pos.compare_cont_refl. destruct s; reflexivity.
Qed.

(** ** Reports held by a Galaxy *)

Lemma obj_getattr_field (d : list (key * value)) (name : string) :
  mem name dict_methods = false ->
  obj_getattr (VDict d) name = Ok (field d name).
Proof.
  intros H. unfold obj_getattr, field. rewrite H.
  destruct (lookup (KStr name) d); reflexivity.
Qed.

Lemma bind_Ok {A B : Type} (m : M A) (k : A -> M B) (w w' : world) (a : A) :
  m w = (Ok a, w') -> bind m k w = k a w'.
Proof. intros H. unfold bind. rewrite H. reflexivity. Qed.

Lemma bind_Err {A B : Type} (m : M A) (k : A -> M B) (w w' : world) (e : exn) :
  m w = (Err e, w') -> bind m k w = (Err e, w').
Proof. intros H. unfold bind. rewrite H. reflexivity. Qed.

Lemma bind_bind_Err {A B C : Type} (m : M A) (k1 : A -> M B) (k2 : A -> B -> M C)
    (w w' : world) (e : exn) :
  bind m k1 w = (Err e, w') ->
  bind m (fun a => bind (k1 a) (k2 a)) w = (Err e, w').
Proof.
  unfold bind. destruct (m w) as [[a|e0] w0].
  - destruct (k1 a w0) as [[b|e1] w1]; intros H; [discriminate H|].
    injection H as -> ->. reflexivity.
  - intros H. injection H as -> ->. reflexivity.
Qed.

Section GalaxyFacts.

Variable request : list event -> string -> list (string * value) -> result value.

(** [update_state] stops at the name [game_number]: nothing is requested
    and nothing is stored. *)
Lemma Galaxy_update_state_NameError (self : nat) (w : world) :
  Galaxy_update_state request self w
  = (Err (NameError "game_number"),
     mkWorld (heap w) (trace w ++ [CallUpdateState self])).
Proof. reflexivity. Qed.

(** A Galaxy whose [_report] is truthy hands it out as it is. *)
Lemma Galaxy_report_held (self : nat) (w : world) (g : GalaxyObj) :
  nth_error (heap w) self = Some g ->
  truthy (_report g) = true ->
  Galaxy_report request self w = (Ok (_report g), w).
Proof.
  intros Hg Ht. unfold Galaxy_report, bind, get_report.
  rewrite Hg, Ht. simpl. unfold ret. rewrite Hg. reflexivity.
Qed.

(** A Galaxy whose [_report] is falsy enters [update_state]. *)
Lemma Galaxy_report_unheld (self : nat) (w : world) (g : GalaxyObj) :
  nth_error (heap w) self = Some g ->
  truthy (_report g) = false ->
  Galaxy_report request self w
  = (Err (NameError "game_number"),
     mkWorld (heap w) (trace w ++ [CallUpdateState self])).
Proof.
  intros Hg Ht. unfold Galaxy_report, bind, get_report.
  rewrite Hg, Ht. reflexivity.
Qed.

(** Construction from credentials allocates the private Galaxy and enters
    its [update_state] at once, through [self.galaxy.report]. *)
Lemma private_galaxy_report (kwargs : list (string * value)) (gn ck : value) (w : world) :
  pop "game_number" kwargs = Ok gn ->
  pop "cookies" kwargs = Ok ck ->
  bind (_HasGalaxy___init__ kwargs) (report_of request) w
  = (Err (NameError "game_number"),
     mkWorld (heap w ++ [mkGalaxy gn ck VNone])
             (trace w ++ [CallUpdateState (List.length (heap w))])).
Proof.
  intros Hgn Hck.
  assert (Hk : has_key "game_number" kwargs = true).
  { unfold has_key. unfold pop in Hgn.
    destruct (assoc "game_number" kwargs); [reflexivity|discriminate]. }
  unfold _HasGalaxy___init__. rewrite Hk. simpl.
  unfold bind at 1 2. unfold lift at 1. rewrite Hgn.
  unfold bind at 1. unfold lift at 1. rewrite Hck.
  cbv iota beta.
  unfold bind, lift, Galaxy___init__, alloc, report_of.
  change (load_global "Galaxy") with (Ok (VGlobal "Galaxy")). cbv iota beta.
  erewrite Galaxy_report_unheld.
  - reflexivity.
  - simpl heap. rewrite nth_error_app2 by lia.
    rewrite Nat.sub_diag. reflexivity.
  - reflexivity.
Qed.

End GalaxyFacts.

(** ** The claims on Galaxy *)

Section GalaxyClaims.

Variable request : list event -> string -> list (string * value) -> result value.

(** C1, where the code departs from it.  The Galaxy made by [Galaxy(1, 'c')]
    holds no report.  Reading [report] enters [update_state] once, and
    [update_state] raises [NameError] on [game_number] before [request] is
    called: no report comes back and none is stored, so a second read
    enters [update_state] again. *)
Theorem report_of_new_galaxy_raises :
  let w1 := mkWorld [mkGalaxy (VInt 1) (VStr "c") VNone] [CallUpdateState 0] in
  let w2 := mkWorld [mkGalaxy (VInt 1) (VStr "c") VNone]
                    [CallUpdateState 0; CallUpdateState 0] in
  bind (Galaxy___init__ (VInt 1) (VStr "c")) (report_of request) empty_world
  = (Err (NameError "game_number"), w1)
  /\ updates 0 (trace w1) = 1%nat
  /\ Galaxy_report request 0 w1 = (Err (NameError "game_number"), w2)
  /\ updates 0 (trace w2) = 2%nat
  /\ fetches (trace w2) = 0%nat.
Proof. repeat split. Qed.

Lemma Galaxy_game_state_held (self : nat) (w : world) (g : GalaxyObj)
    (d : list (key * value)) :
  nth_error (heap w) self = Some g ->
  _report g = VDict d ->
  truthy (VDict d) = true ->
  Galaxy_game_state request self w
  = (Ok (if truthy (field d "game_over") then "finished"
         else if negb (truthy (field d "started")) then "not started"
         else if truthy (field d "paused") then "paused"
         else "running"), w).
Proof.
  intros Hg Hr Hd.
  assert (Ht : truthy (_report g) = true) by (rewrite Hr; exact Hd).
  pose proof (Galaxy_report_held request self w g Hg Ht) as Hrep.
  rewrite Hr in Hrep.
  unfold Galaxy_game_state.
  rewrite (bind_Ok _ _ _ _ _ Hrep).
  unfold bind at 1. unfold lift at 1.
  rewrite obj_getattr_field by reflexivity.
  destruct (truthy (field d "game_over")); [reflexivity|]. cbv iota.
  rewrite (bind_Ok _ _ _ _ _ Hrep).
  unfold bind at 1. unfold lift at 1.
  rewrite obj_getattr_field by reflexivity.
  destruct (truthy (field d "started")); [|reflexivity].
  change (negb true) with false. cbv iota.
  rewrite (bind_Ok _ _ _ _ _ Hrep).
  unfold bind at 1. unfold lift at 1.
  rewrite obj_getattr_field by reflexivity.
  destruct (truthy (field d "paused")); reflexivity.
Qed.

(** C2.  On a Galaxy that holds a report, [game_state] tests [game_over],
    then [started], then [paused]: "finished" as soon as [game_over] is
    true, whatever the other two flags; "not started" when [game_over] is
    false and [started] is false; "paused" when only [started] and [paused]
    are true; "running" otherwise.  The report is left as it is. *)
Theorem game_state_precedence (self : nat) (w : world) (g : GalaxyObj)
    (d : list (key * value)) :
  nth_error (heap w) self = Some g ->
  _report g = VDict d ->
  truthy (VDict d) = true ->
  let game_over := truthy (field d "game_over") in
  let started := truthy (field d "started") in
  let paused := truthy (field d "paused") in
  let state := Galaxy_game_state request self w in
  (game_over = true -> state = (Ok "finished", w))
  /\ (game_over = false -> started = false -> state = (Ok "not started", w))
  /\ (game_over = false -> started = true -> paused = true ->
      state = (Ok "paused", w))
  /\ (game_over = false -> started = true -> paused = false ->
      state = (Ok "running", w)).
Proof.
  intros Hg Hr Hd. cbv zeta.
  rewrite (Galaxy_game_state_held self w g d Hg Hr Hd).
  repeat split; intros; repeat match goal with H : truthy _ = _ |- _ => rewrite H end;
    reflexivity.
Qed.

Lemma Galaxy_fleets_nonempty (self : nat) (w : world) (g : GalaxyObj)
    (d : list (key * value)) (kv : key * value) (rest : list (key * value)) :
  nth_error (heap w) self = Some g ->
  _report g = VDict d ->
  field d "fleets" = VDict (kv :: rest) ->
  Galaxy_fleets request self w = (Err (KeyError (VBuiltin "id")), w).
Proof.
  intros Hg Hr Hf.
  assert (Ht : truthy (_report g) = true).
  { rewrite Hr. destruct d; [discriminate|reflexivity]. }
  pose proof (Galaxy_report_held request self w g Hg Ht) as Hrep.
  rewrite Hr in Hrep.
  unfold Galaxy_fleets.
  rewrite (bind_Ok _ _ _ _ _ Hrep).
  unfold bind at 1. unfold lift at 1.
  rewrite obj_getattr_field by reflexivity. rewrite Hf.
  unfold bind at 1. unfold lift at 1. simpl dict_items. cbv iota beta.
  simpl mapM. destruct kv as [k v]. simpl fst. simpl snd.
  unfold bind at 1. unfold bind at 1. unfold lift at 1.
  change (load_global "Fleet") with (Ok (VGlobal "Fleet")). cbv iota beta.
  unfold bind at 1. unfold lift at 1.
  change (load_global "id") with (Ok (VBuiltin "id")). cbv iota beta.
  unfold bind at 1. unfold Fleet___init__.
  unfold bind at 1.
  change (_HasGalaxy___init__ [("galaxy", VGalaxy self)] w) with (Ok (VGalaxy self), w).
  cbv iota beta. unfold report_of.
  rewrite (bind_Ok _ _ _ _ _ Hrep).
  unfold bind at 1. unfold lift at 1.
  rewrite obj_getattr_field by reflexivity. rewrite Hf.
  reflexivity.
Qed.

(** C5, where the code departs from it.  The Galaxy of [sample_world]
    holds a report whose [fleets] has the one id 7.  Each Fleet is built as
    [Fleet(id, galaxy=self)], with the builtin [id] and not [fleet_id], so
    the first item already fails with [KeyError]: no mapping is returned. *)
Theorem fleets_of_visible_fleet_raises :
  Galaxy_fleets request 0 sample_world = (Err (KeyError (VBuiltin "id")), sample_world).
Proof.
  apply (Galaxy_fleets_nonempty 0 sample_world _ _ _ _ eq_refl eq_refl eq_refl).
Qed.

(** C6, where the code departs from it.  [update_state] names
    [game_number] and [cookies] bare, not as attributes of [self]: whatever
    the Galaxy stores, the call raises [NameError], [request] is not called
    and the report held before stays in place. *)
Theorem update_state_raises (gn ck held : value) :
  let w := mkWorld [mkGalaxy gn ck held] [] in
  let w' := snd (Galaxy_update_state request 0 w) in
  Galaxy_update_state request 0 w
  = (Err (NameError "game_number"), mkWorld [mkGalaxy gn ck held] [CallUpdateState 0])
  /\ fetches (trace w') = 0%nat
  /\ option_map _report (nth_error (heap w') 0) = Some held.
Proof. repeat split. Qed.

Lemma Galaxy_turn_based_held (self : nat) (w : world) (g : GalaxyObj)
    (d : list (key * value)) :
  nth_error (heap w) self = Some g ->
  _report g = VDict d ->
  truthy (VDict d) = true ->
  Galaxy_turn_based request self w = (Ok (py_eq_int (field d "turn_based") 1), w).
Proof.
  intros Hg Hr Hd.
  assert (Ht : truthy (_report g) = true) by (rewrite Hr; exact Hd).
  pose proof (Galaxy_report_held request self w g Hg Ht) as Hrep.
  rewrite Hr in Hrep.
  unfold Galaxy_turn_based.
  rewrite (bind_Ok _ _ _ _ _ Hrep).
  unfold bind at 1. unfold lift at 1.
  rewrite obj_getattr_field by reflexivity. reflexivity.
Qed.

(** C8.  On a Galaxy that holds a report, [turn_based] is true when the
    stored flag is the integer 1 and false for every other integer, such as
    0 and 2; without a stored flag it is false, and no error is raised. *)
Theorem turn_based_flag (self : nat) (w : world) (g : GalaxyObj)
    (d : list (key * value)) :
  nth_error (heap w) self = Some g ->
  _report g = VDict d ->
  truthy (VDict d) = true ->
  (forall z, lookup (KStr "turn_based") d = Some (VInt z) ->
     Galaxy_turn_based request self w = (Ok (z =? 1), w))
  /\ (lookup (KStr "turn_based") d = None ->
     Galaxy_turn_based request self w = (Ok false, w)).
Proof.
  intros Hg Hr Hd.
  rewrite (Galaxy_turn_based_held self w g d Hg Hr Hd). unfold field.
  split.
  - intros z Hz. rewrite Hz. reflexivity.
  - intros Hz. rewrite Hz. reflexivity.
Qed.

(** C9, as the code has it.  A Star or Fleet built from [game_number] and
    [cookies] makes a private Galaxy out of them, and its constructor reads
    that Galaxy's [report] itself to set [self.data]: [update_state] of the
    private Galaxy is entered during construction, before any field of the
    entity can be read. *)
Theorem construction_reads_report (entity_id : value)
    (kwargs : list (string * value)) (gn ck : value) (w : world) :
  pop "game_number" kwargs = Ok gn ->
  pop "cookies" kwargs = Ok ck ->
  constructed_eagerly (Star___init__ request entity_id kwargs) gn ck w
  /\ constructed_eagerly (Fleet___init__ request entity_id kwargs) gn ck w.
Proof.
  intros Hgn Hck.
  pose proof (private_galaxy_report request kwargs gn ck w Hgn Hck) as H.
  assert (Hw : forall init : M entity,
             init = Star___init__ request entity_id kwargs \/
             init = Fleet___init__ request entity_id kwargs ->
             snd (init w)
             = mkWorld (heap w ++ [mkGalaxy gn ck VNone])
                       (trace w ++ [CallUpdateState (List.length (heap w))])).
  { intros init [->| ->]; unfold Star___init__, Fleet___init__;
      erewrite bind_bind_Err by exact H; reflexivity. }
  assert (Hc : forall init : M entity,
             snd (init w)
             = mkWorld (heap w ++ [mkGalaxy gn ck VNone])
                       (trace w ++ [CallUpdateState (List.length (heap w))]) ->
             constructed_eagerly init gn ck w).
  { intros init E. unfold constructed_eagerly. rewrite E. simpl heap. simpl trace.
    rewrite nth_error_app2 by lia. rewrite Nat.sub_diag.
    repeat split. exists []. reflexivity. }
  split; apply Hc, Hw; auto.
Qed.

End GalaxyClaims.

(** ** The claims on Star and Fleet *)

Section EntityClaims.

Variable float_of_str : string -> option spec_float.

(** A name that ordinary lookup does not find goes to [__getattr__], which
    stops at the bare name [aliases]. *)
Lemma getattr_undefined (depth : nat) (self : entity) (attr : string) :
  find_attribute float_of_str self attr = None ->
  getattr float_of_str (S depth) self attr = Err (NameError "aliases").
Proof. intros H. simpl. rewrite H. reflexivity. Qed.

(** The accessor [x] wins over the data key [x]: a Star or Fleet whose data
    stores [x] as a string answers with the float read from it. *)
Lemma getattr_x_coerces (depth : nat) (self : entity) (d : list (key * value))
    (s : string) :
  data self = VDict d ->
  lookup (KStr "x") d = Some (VStr s) ->
  getattr float_of_str (S depth) self "x"
  = match float_of_str s with
    | Some f => Ok (VFloat f)
    | None => Err ValueError
    end.
Proof.
  intros Hd Hx. destruct self as [[] g dd]; simpl in Hd; subst dd;
    simpl; unfold Fleet_x, Star_x, as_float; simpl; rewrite Hx; simpl;
    destruct (float_of_str s); reflexivity.
Qed.

(** C4, where the code departs from it.  A Star whose data stores
    [n = 'Sol'] and [x = '1.5']: the alias [name] and the plain data key [n]
    both end in [NameError], because [__getattr__] names [aliases] bare and
    not as [self.aliases]; only the accessor [x] answers, with the float
    read from the stored string. *)
Theorem alias_lookup_raises (depth : nat) :
  let star := mkEntity Star (VGalaxy 0) (sample_star "1.5" "2" "1") in
  getattr float_of_str (S depth) star "name" = Err (NameError "aliases")
  /\ getattr float_of_str (S depth) star "n" = Err (NameError "aliases")
  /\ getattr float_of_str (S depth) star "x"
     = match float_of_str "1.5" with
       | Some f => Ok (VFloat f)
       | None => Err ValueError
       end.
Proof.
  repeat split.
  simpl. unfold Star_x, as_float. simpl.
  destruct (float_of_str "1.5"); reflexivity.
Qed.

Lemma py_eq_str_true (v : value) (s : string) :
  py_eq_str v s = true <-> v = VStr s.
Proof.
  destruct v; simpl; try (split; [discriminate|intros H; discriminate H]).
  rewrite String.eqb_eq. split; [intros ->; reflexivity|intros H; injection H; auto].
Qed.

(** C7.  [visible] of a Star is true exactly when its data stores the
    string ['1'] under [v]; any other stored value, the string ['0'] and the
    integer 1 among them, and no stored value at all, give false. *)
Theorem visible_sentinel (self : entity) (d : list (key * value)) :
  data self = VDict d ->
  (exists b, Star_visible self = Ok b
             /\ (b = true <-> lookup (KStr "v") d = Some (VStr "1")))
  /\ (lookup (KStr "v") d = Some (VStr "0") -> Star_visible self = Ok false)
  /\ (lookup (KStr "v") d = Some (VInt 1) -> Star_visible self = Ok false)
  /\ (lookup (KStr "v") d = None -> Star_visible self = Ok false).
Proof.
  intros Hd. unfold Star_visible. rewrite Hd.
  rewrite obj_getattr_field by reflexivity. unfold field. simpl rbind.
  split; [|repeat split; intros H; rewrite H; reflexivity].
  exists (py_eq_str match lookup (KStr "v") d with Some v => v | None => VNone end "1").
  split; [reflexivity|].
  rewrite py_eq_str_true.
  destruct (lookup (KStr "v") d) as [v|].
  - split; [intros ->; reflexivity|intros H; injection H; auto].
  - split; discriminate.
Qed.

Lemma Star_distance_as_euclidean (a b : entity) (x1 y1 x2 y2 : spec_float)
    (as_level : bool) :
  Star_x float_of_str a = Ok x1 ->
  Star_y float_of_str a = Ok y1 ->
  coord_x float_of_str b = Ok x2 ->
  coord_y float_of_str b = Ok y2 ->
  Star_distance float_of_str a b as_level
  = let* dist := euclidean x1 y1 x2 y2 in
    if as_level then let* level := range_level dist in Ok (VInt level)
    else Ok (VFloat dist).
Proof.
  intros Hx1 Hy1 Hx2 Hy2. unfold Star_distance, euclidean.
  rewrite Hx1, Hx2. cbn [rbind].
  destruct (py_pow2 (fsub x1 x2)) as [dx2|e]; [|reflexivity]. cbn [rbind].
  rewrite Hy1, Hy2. cbn [rbind].
  destruct (py_pow2 (fsub y1 y2)) as [dy2|e]; [|reflexivity]. cbn [rbind].
  destruct (math_sqrt (fadd dx2 dy2)) as [dist|e]; [|reflexivity].
  cbn [rbind]. destruct as_level; [|reflexivity].
  unfold range_level. cbn [negb rbind].
  destruct (math_ceil dist) as [c|e]; [|reflexivity]. cbn [rbind].
  do 2 f_equal. destruct (c - 3 <? 1) eqn:E; [apply Z.ltb_lt in E|apply Z.ltb_ge in E]; lia.
Qed.


(** C10.  For stars [a] and [b] whose positions read as floats,
    [a.distance(b)] and [b.distance(a)] are the same, as a raw distance and
    as a range level: the same value, or the same error.  When the positions
    are finite numbers, what the two calls return is equal under [==]. *)
Theorem distance_symmetric (a b : entity) (x1 y1 x2 y2 : spec_float)
    (as_level : bool) :
  e_class a = Star ->
  e_class b = Star ->
  Star_x float_of_str a = Ok x1 ->
  Star_y float_of_str a = Ok y1 ->
  Star_x float_of_str b = Ok x2 ->
  Star_y float_of_str b = Ok y2 ->
  Star_distance float_of_str a b as_level = Star_distance float_of_str b a as_level
  /\ (is_finite x1 = true -> is_finite y1 = true ->
      is_finite x2 = true -> is_finite y2 = true ->
      forall v1 v2,
        Star_distance float_of_str a b as_level = Ok v1 ->
        Star_distance float_of_str b a as_level = Ok v2 ->
        py_eq_num v1 v2 = true).
Proof.
  intros Ha Hb Hx1 Hy1 Hx2 Hy2.
  assert (Hca : coord_x float_of_str a = Ok x1 /\ coord_y float_of_str a = Ok y1)
    by (unfold coord_x, coord_y; rewrite Ha; auto).
  assert (Hcb : coord_x float_of_str b = Ok x2 /\ coord_y float_of_str b = Ok y2)
    by (unfold coord_x, coord_y; rewrite Hb; auto).
  destruct Hca as [Hca1 Hca2], Hcb as [Hcb1 Hcb2].
  rewrite (Star_distance_as_euclidean a b x1 y1 x2 y2 _ Hx1 Hy1 Hcb1 Hcb2).
  rewrite (Star_distance_as_euclidean b a x2 y2 x1 y1 _ Hx2 Hy2 Hca1 Hca2).
  rewrite (euclidean_sym x2 y2 x1 y1).
  split; [reflexivity|].
  intros F1 F2 F3 F4 v1 v2 H1 H2.
  rewrite H1 in H2. injection H2 as <-.
  destruct (euclidean x1 y1 x2 y2) as [dist|e] eqn:E; [|discriminate].
  cbn [rbind] in H1.
  destruct as_level.
  - destruct (range_level dist) as [level|e]; [|discriminate].
    injection H1 as <-. apply Z.eqb_refl.
  - injection H1 as <-. simpl.
    apply SFeqb_refl, (euclidean_number x1 y1 x2 y2); assumption.
Qed.

End EntityClaims.

(** ** The claims at sample inputs *)

(** The spec's two distances: (0,0) to (3,4) is 5.0, range level 2;
    (0,0) to (1,1) has range level 1. *)
Example distance_0_0_to_3_4 :
  Star_distance no_float_of_str (star_at 0 0) (star_at 3 4) false
  = Ok (VFloat (float_of_Z 5))
  /\ Star_distance no_float_of_str (star_at 0 0) (star_at 3 4) true = Ok (VInt 2).
Proof. split; vm_compute; reflexivity. Qed.

Example distance_0_0_to_1_1 :
  Star_distance no_float_of_str (star_at 0 0) (star_at 1 1) true = Ok (VInt 1).
Proof. vm_compute; reflexivity. Qed.

(** A finished game that is also paused reports "finished". *)
Lemma game_state_precedence_witness :
  truthy sample_report = true
  /\ Galaxy_game_state sample_request 0 sample_world = (Ok "finished", sample_world).
Proof.
  split; [reflexivity|].
  apply (proj1 (game_state_precedence sample_request 0 sample_world _ _
                  eq_refl eq_refl eq_refl)).
  reflexivity.
Defined.

Lemma turn_based_flag_witness :
  truthy sample_report = true
  /\ Galaxy_turn_based sample_request 0 sample_world = (Ok true, sample_world).
Proof.
  split; [reflexivity|].
  apply (proj1 (turn_based_flag sample_request 0 sample_world _ _
                  eq_refl eq_refl eq_refl) 1).
  reflexivity.
Defined.

Lemma visible_sentinel_witness :
  Star_visible (mkEntity Star (VGalaxy 0) (sample_star "3" "4" "0")) = Ok false.
Proof.
  apply (proj1 (proj2 (visible_sentinel
           (mkEntity Star (VGalaxy 0) (sample_star "3" "4" "0")) _ eq_refl))).
  reflexivity.
Defined.

Lemma construction_reads_report_witness :
  pop "game_number" credentials = Ok (VInt 1)
  /\ pop "cookies" credentials = Ok (VStr "c")
  /\ constructed_eagerly (Star___init__ sample_request (VInt 0) credentials)
       (VInt 1) (VStr "c") empty_world.
Proof.
  split; [reflexivity|]. split; [reflexivity|].
  apply (proj1 (construction_reads_report sample_request (VInt 0) credentials
                  (VInt 1) (VStr "c") empty_world eq_refl eq_refl)).
Defined.

(** C9 as stated fails: built from credentials in the empty world, neither
    a Star nor a Fleet comes back with [update_state] still unentered.  The
    constructor has entered it, and raised. *)
Lemma construction_from_credentials_not_lazy :
  ~ constructed_lazily (Star___init__ sample_request (VInt 0) credentials) empty_world
  /\ ~ constructed_lazily (Fleet___init__ sample_request (VInt 7) credentials) empty_world
  /\ trace (snd (Star___init__ sample_request (VInt 0) credentials empty_world))
     = [CallUpdateState 0].
Proof.
  split; [|split].
  - intros (e & w' & H & _). vm_compute in H. discriminate H.
  - intros (e & w' & H & _). vm_compute in H. discriminate H.
  - reflexivity.
Qed.


Lemma distance_symmetric_witness :
  Star_distance no_float_of_str (star_at 0 0) (star_at 1 1) false
  = Star_distance no_float_of_str (star_at 1 1) (star_at 0 0) false.
Proof.
  apply (proj1 (distance_symmetric no_float_of_str (star_at 0 0) (star_at 1 1)
                  (float_of_Z 0) (float_of_Z 0) (float_of_Z 1) (float_of_Z 1) false
                  eq_refl eq_refl eq_refl eq_refl eq_refl eq_refl)).
Defined.

(** * Further properties of the module *)

(** ** Construction of Fleet and Star *)

Lemma has_key_pop (name : string) (kwargs : list (string * value)) :
  has_key name kwargs = false -> pop name kwargs = Err (KeyError (VStr name)).
Proof.
  unfold has_key, pop. destruct (assoc name kwargs); [discriminate|reflexivity].
Qed.

Lemma pop_has_key (name : string) (kwargs : list (string * value)) (v : value) :
  pop name kwargs = Ok v -> has_key name kwargs = true.
Proof.
  unfold has_key, pop. destruct (assoc name kwargs); [reflexivity|discriminate].
Qed.

(** The keyword arguments decide at construction.  With one credential but
    not the other, or with neither credentials nor [galaxy], [__init__]
    raises [KeyError] for the missing name and builds nothing.  With both
    credentials a new Galaxy is built, without any call of [update_state] or
    [request], and a [galaxy] argument given besides is ignored. *)
Theorem HasGalaxy_init_arguments (kwargs : list (string * value)) (w : world) :
  (has_key "game_number" kwargs = true -> has_key "cookies" kwargs = false ->
   _HasGalaxy___init__ kwargs w = (Err (KeyError (VStr "cookies")), w))
  /\ (has_key "game_number" kwargs = false -> has_key "cookies" kwargs = true ->
      _HasGalaxy___init__ kwargs w = (Err (KeyError (VStr "game_number")), w))
  /\ (has_key "game_number" kwargs = false -> has_key "cookies" kwargs = false ->
      has_key "galaxy" kwargs = false ->
      _HasGalaxy___init__ kwargs w = (Err (KeyError (VStr "galaxy")), w))
  /\ (forall gn ck,
        pop "game_number" kwargs = Ok gn -> pop "cookies" kwargs = Ok ck ->
        _HasGalaxy___init__ kwargs w
        = (Ok (VGalaxy (List.length (heap w))),
           mkWorld (heap w ++ [mkGalaxy gn ck VNone]) (trace w))).
Proof.
  unfold _HasGalaxy___init__. repeat split.
  - intros H1 H2. rewrite H1. simpl orb. cbv iota.
    unfold has_key in H1. unfold bind, lift, pop at 1.
    destruct (assoc "game_number" kwargs); [|discriminate].
    rewrite (has_key_pop _ _ H2). reflexivity.
  - intros H1 H2. rewrite H1, H2. simpl orb. cbv iota.
    unfold bind, lift. rewrite (has_key_pop _ _ H1). reflexivity.
  - intros H1 H2 H3. rewrite H1, H2. simpl orb. cbv iota.
    unfold lift. rewrite (has_key_pop _ _ H3). reflexivity.
  - intros gn ck H1 H2. rewrite (pop_has_key _ _ _ H1). simpl orb. cbv iota.
    unfold bind, lift. rewrite H1, H2. reflexivity.
Qed.

Section ConstructionFacts.

Variable request : list event -> string -> list (string * value) -> result value.

(** Construction from a Galaxy that holds a report, for either class:
    [collection] is ["stars"] or ["fleets"]. *)
Lemma init_from_held_galaxy (k : klass) (collection : string)
    (init : value -> list (string * value) -> M entity)
    (kwargs : list (string * value)) (entity_id : value)
    (self : nat) (w : world) (g : GalaxyObj) (d : list (key * value)) :
  (forall i kw,
     init i kw = (g <- _HasGalaxy___init__ kw ;;
                  r <- report_of request g ;;
                  c <- lift (obj_getattr r collection) ;;
                  x <- lift (py_getitem c i) ;;
                  ret (mkEntity k g x))) ->
  mem collection dict_methods = false ->
  has_key "game_number" kwargs = false ->
  has_key "cookies" kwargs = false ->
  pop "galaxy" kwargs = Ok (VGalaxy self) ->
  nth_error (heap w) self = Some g ->
  _report g = VDict d ->
  truthy (VDict d) = true ->
  init entity_id kwargs w
  = (let* x := py_getitem (field d collection) entity_id in
     Ok (mkEntity k (VGalaxy self) x), w).
Proof.
  intros Hinit Hc H1 H2 H3 Hg Hr Ht. rewrite Hinit.
  assert (Hk : _HasGalaxy___init__ kwargs w = (Ok (VGalaxy self), w)).
  { unfold _HasGalaxy___init__. rewrite H1, H2. simpl orb. cbv iota.
    unfold lift. rewrite H3. reflexivity. }
  rewrite (bind_Ok _ _ _ _ _ Hk). unfold report_of.
  assert (Ht' : truthy (_report g) = true) by (rewrite Hr; exact Ht).
  pose proof (Galaxy_report_held request self w g Hg Ht') as Hrep.
  rewrite Hr in Hrep. rewrite (bind_Ok _ _ _ _ _ Hrep).
  unfold bind, lift, ret. rewrite (obj_getattr_field _ _ Hc).
  destruct (py_getitem (field d collection) entity_id); reflexivity.
Qed.

(** Built with [galaxy=g] from a Galaxy that holds a report, a Star is the
    view of [report.stars[star_id]] and a Fleet the view of
    [report.fleets[fleet_id]], both on that same Galaxy; a failing index
    fails the construction; the world is not touched: no [update_state], no
    [request], no new Galaxy. *)
Theorem construction_from_galaxy (kwargs : list (string * value))
    (entity_id : value) (self : nat) (w : world) (g : GalaxyObj)
    (d : list (key * value)) :
  has_key "game_number" kwargs = false ->
  has_key "cookies" kwargs = false ->
  pop "galaxy" kwargs = Ok (VGalaxy self) ->
  nth_error (heap w) self = Some g ->
  _report g = VDict d ->
  truthy (VDict d) = true ->
  Star___init__ request entity_id kwargs w
  = (let* x := py_getitem (field d "stars") entity_id in
     Ok (mkEntity Star (VGalaxy self) x), w)
  /\ Fleet___init__ request entity_id kwargs w
     = (let* x := py_getitem (field d "fleets") entity_id in
        Ok (mkEntity Fleet (VGalaxy self) x), w).
Proof.
  intros H1 H2 H3 Hg Hr Ht. split.
  - apply (init_from_held_galaxy Star "stars" (Star___init__ request)
             kwargs entity_id self w g d); auto.
  - apply (init_from_held_galaxy Fleet "fleets" (Fleet___init__ request)
             kwargs entity_id self w g d); auto.
Qed.

(** A fleet id that the report's sparse [fleets] mapping does not hold makes
    [Fleet(fleet_id, galaxy=g)] raise [KeyError] with that id: there is no
    default Fleet. *)
Theorem fleet_not_visible (fleet_id : Z) (self : nat) (w : world)
    (g : GalaxyObj) (d fl : list (key * value)) :
  nth_error (heap w) self = Some g ->
  _report g = VDict d ->
  field d "fleets" = VDict fl ->
  lookup (KInt fleet_id) fl = None ->
  Fleet___init__ request (VInt fleet_id) [("galaxy", VGalaxy self)] w
  = (Err (KeyError (VInt fleet_id)), w).
Proof.
  intros Hg Hr Hf Hl.
  assert (Ht : truthy (VDict d) = true).
  { destruct d; [discriminate Hf|reflexivity]. }
  rewrite (init_from_held_galaxy Fleet "fleets" (Fleet___init__ request)
             [("galaxy", VGalaxy self)] (VInt fleet_id) self w g d);
    try reflexivity; try assumption.
  rewrite Hf. simpl. rewrite Hl. reflexivity.
Qed.

End ConstructionFacts.

(** ** Indexing the stars *)

Lemma list_index_inside (l : list value) (i : Z) :
  0 <= i < Z.of_nat (List.length l) ->
  list_index l i = Ok (nth (Z.to_nat i) l VNone).
Proof.
  intros H. unfold list_index. cbv zeta.
  destruct (Z.ltb_spec i 0); [lia|].
  destruct (Z.ltb_spec i 0); [lia|].
  destruct (Z.leb_spec (Z.of_nat (List.length l)) i); [lia|].
  simpl orb. cbv iota.
  rewrite (nth_error_nth' l VNone) by lia. reflexivity.
Qed.

Lemma list_index_outside (l : list value) (i : Z) :
  Z.of_nat (List.length l) <= i \/ i < - Z.of_nat (List.length l) ->
  list_index l i = Err IndexError.
Proof.
  intros H. unfold list_index. cbv zeta.
  destruct (Z.ltb_spec i 0).
  - destruct (Z.ltb_spec (i + Z.of_nat (List.length l)) 0); [reflexivity|lia].
  - destruct (Z.ltb_spec i 0); [lia|].
    destruct (Z.leb_spec (Z.of_nat (List.length l)) i); [reflexivity|lia].
Qed.

Lemma list_index_negative (l : list value) (i : Z) :
  - Z.of_nat (List.length l) <= i < 0 ->
  list_index l i = list_index l (i + Z.of_nat (List.length l)).
Proof.
  intros H. unfold list_index. cbv zeta.
  destruct (Z.ltb_spec i 0); [|lia].
  destruct (Z.ltb_spec (i + Z.of_nat (List.length l)) 0); [lia|].
  destruct (Z.ltb_spec (i + Z.of_nat (List.length l)) 0); [lia|].
  reflexivity.
Qed.

Lemma map_nth_seq (l pre : list value) :
  map (fun k => nth k (pre ++ l) VNone) (seq (List.length pre) (List.length l)) = l.
Proof.
  revert pre. induction l as [|x l IH]; intros pre; [reflexivity|].
  simpl. f_equal.
  - rewrite app_nth2 by lia. rewrite Nat.sub_diag. reflexivity.
  - specialize (IH (pre ++ [x])%list).
    rewrite <- app_assoc in IH. simpl in IH.
    rewrite length_app in IH. simpl in IH.
    rewrite Nat.add_1_r in IH. exact IH.
Qed.

Lemma mapM_pure {A B : Type} (f : A -> M B) (g : A -> B) (xs : list A) (w : world) :
  (forall x, In x xs -> f x w = (Ok (g x), w)) ->
  mapM f xs w = (Ok (map g xs), w).
Proof.
  induction xs as [|x xs IH]; intros H; [reflexivity|].
  simpl. rewrite (bind_Ok _ _ _ _ _ (H x (or_introl eq_refl))).
  rewrite (bind_Ok _ _ _ _ _ (IH (fun y Hy => H y (or_intror Hy)))).
  reflexivity.
Qed.

Section CollectionFacts.

Variable request : list event -> string -> list (string * value) -> result value.

(** [Star(i, galaxy=g)] on a Galaxy whose report has the list [l] as
    [stars] is decided by the list index. *)
Lemma Star_init_list_index (self : nat) (w : world) (g : GalaxyObj)
    (d : list (key * value)) (l : list value) (i : Z) :
  nth_error (heap w) self = Some g ->
  _report g = VDict d ->
  field d "stars" = VList l ->
  Star___init__ request (VInt i) [("galaxy", VGalaxy self)] w
  = (let* x := list_index l i in Ok (mkEntity Star (VGalaxy self) x), w).
Proof.
  intros Hg Hr Hs.
  assert (Ht : truthy (VDict d) = true).
  { destruct d; [discriminate Hs|reflexivity]. }
  rewrite (init_from_held_galaxy request Star "stars" (Star___init__ request)
             [("galaxy", VGalaxy self)] (VInt i) self w g d);
    try reflexivity; try assumption.
  rewrite Hs. reflexivity.
Qed.

(** When [report.stars] is a list of [n] stars, [Star(i, galaxy=g)] views
    element [i] for [0 <= i < n], counts a negative [i] from the end like
    any Python list index, and raises [IndexError] for [i >= n] and
    [i < -n]. *)
Theorem star_index_bounds (self : nat) (w : world) (g : GalaxyObj)
    (d : list (key * value)) (l : list value) :
  nth_error (heap w) self = Some g ->
  _report g = VDict d ->
  field d "stars" = VList l ->
  let n := Z.of_nat (List.length l) in
  let star i := Star___init__ request (VInt i) [("galaxy", VGalaxy self)] w in
  (forall i, 0 <= i < n ->
     star i = (Ok (mkEntity Star (VGalaxy self) (nth (Z.to_nat i) l VNone)), w))
  /\ (forall i, - n <= i < 0 -> star i = star (i + n))
  /\ (forall i, n <= i \/ i < - n -> star i = (Err IndexError, w)).
Proof.
  intros Hg Hr Hs n star. unfold star.
  repeat split.
  - intros i Hi. rewrite (Star_init_list_index self w g d l i Hg Hr Hs).
    rewrite (list_index_inside l i Hi). reflexivity.
  - intros i Hi. rewrite !(Star_init_list_index self w g d l _ Hg Hr Hs).
    rewrite (list_index_negative l i Hi). reflexivity.
  - intros i Hi. rewrite (Star_init_list_index self w g d l i Hg Hr Hs).
    rewrite (list_index_outside l i Hi). reflexivity.
Qed.

(** When [report.stars] is a list, [Galaxy.stars] is dense and ordered: one
    Star per element, in the order of the list, each viewing its element and
    all sharing the Galaxy; the world is not touched. *)
Theorem stars_dense (self : nat) (w : world) (g : GalaxyObj)
    (d : list (key * value)) (l : list value) :
  nth_error (heap w) self = Some g ->
  _report g = VDict d ->
  field d "stars" = VList l ->
  Galaxy_stars request self w = (Ok (map (mkEntity Star (VGalaxy self)) l), w).
Proof.
  intros Hg Hr Hs.
  assert (Ht : truthy (VDict d) = true).
  { destruct d; [discriminate Hs|reflexivity]. }
  assert (Ht' : truthy (_report g) = true) by (rewrite Hr; exact Ht).
  pose proof (Galaxy_report_held request self w g Hg Ht') as Hrep.
  rewrite Hr in Hrep.
  unfold Galaxy_stars. rewrite (bind_Ok _ _ _ _ _ Hrep).
  unfold bind at 1. unfold lift at 1.
  rewrite obj_getattr_field by reflexivity. rewrite Hs.
  unfold bind at 1. unfold lift at 1. simpl py_len. cbv iota beta.
  assert (Hmap : map (fun i => mkEntity Star (VGalaxy self) (nth (Z.to_nat i) l VNone))
                     (py_range (List.length l))
                 = map (mkEntity Star (VGalaxy self)) l).
  { unfold py_range. rewrite map_map.
    transitivity (map (mkEntity Star (VGalaxy self))
                      (map (fun k => nth k l VNone) (seq 0 (List.length l)))).
    - rewrite map_map. apply map_ext. intros k. rewrite Nat2Z.id. reflexivity.
    - f_equal. exact (map_nth_seq l []). }
  rewrite (mapM_pure _ (fun i => mkEntity Star (VGalaxy self) (nth (Z.to_nat i) l VNone))).
  - rewrite Hmap. reflexivity.
  - intros i Hi. unfold py_range in Hi. apply in_map_iff in Hi.
    destruct Hi as (k & <- & Hk). apply in_seq in Hk.
    unfold bind at 1. unfold lift at 1.
    change (load_global "Star") with (Ok (VGlobal "Star")). cbv iota beta.
    rewrite (Star_init_list_index self w g d l _ Hg Hr Hs).
    rewrite list_index_inside by lia. reflexivity.
Qed.

End CollectionFacts.

(** ** Players, fleets and forwarded fields *)


Section MemberFacts.

Variable request : list event -> string -> list (string * value) -> result value.


(** [Galaxy.players] on a report whose [players] is a list: the empty list
    for no players, and [NameError] for any player at all, because the class
    [Player] is defined nowhere in the module. *)
Theorem players_only_when_empty (self : nat) (w : world) (g : GalaxyObj)
    (d : list (key * value)) (l : list value) :
  nth_error (heap w) self = Some g ->
  _report g = VDict d ->
  field d "players" = VList l ->
  (l = [] -> Galaxy_players request self w = (Ok [], w))
  /\ (l <> [] -> Galaxy_players request self w = (Err (NameError "Player"), w)).
Proof.
  intros Hg Hr Hp.
  assert (Ht : truthy (_report g) = true).
  { rewrite Hr. destruct d; [discriminate Hp|reflexivity]. }
  pose proof (Galaxy_report_held request self w g Hg Ht) as Hrep.
  rewrite Hr in Hrep.
  unfold Galaxy_players. rewrite (bind_Ok _ _ _ _ _ Hrep).
  unfold bind at 1. unfold lift at 1.
  rewrite obj_getattr_field by reflexivity. rewrite Hp.
  unfold bind at 1. unfold lift at 1. simpl py_len. cbv iota beta.
  split.
  - intros ->. reflexivity.
  - intros Hl. destruct l as [|x l]; [contradiction|]. reflexivity.
Qed.


(** [Galaxy.fleets] hands back a mapping exactly when [report.fleets] is
    empty, and then the empty mapping; with any fleet in the report it
    raises [KeyError] on the builtin [id]. *)
Theorem fleets_only_when_empty (self : nat) (w : world) (g : GalaxyObj)
    (d fl : list (key * value)) :
  nth_error (heap w) self = Some g ->
  _report g = VDict d ->
  field d "fleets" = VDict fl ->
  (fl = [] -> Galaxy_fleets request self w = (Ok [], w))
  /\ (fl <> [] -> Galaxy_fleets request self w = (Err (KeyError (VBuiltin "id")), w)).
Proof.
  intros Hg Hr Hf. split.
  - intros ->.
    assert (Ht : truthy (_report g) = true).
    { rewrite Hr. destruct d; [discriminate Hf|reflexivity]. }
    pose proof (Galaxy_report_held request self w g Hg Ht) as Hrep.
    rewrite Hr in Hrep.
    unfold Galaxy_fleets. rewrite (bind_Ok _ _ _ _ _ Hrep).
    unfold bind at 1. unfold lift at 1.
    rewrite obj_getattr_field by reflexivity. rewrite Hf. reflexivity.
  - intros Hne. destruct fl as [|kv rest]; [contradiction|].
    apply (Galaxy_fleets_nonempty request self w g d kv rest Hg Hr Hf).
Qed.

(** A name that [Galaxy] does not define is forwarded to the report as an
    item lookup: the stored value when the report has the key, [KeyError]
    with the name when it has not; the world is not touched. *)
Theorem galaxy_field_forwarding (self : nat) (w : world) (g : GalaxyObj)
    (d : list (key * value)) (attr : string) :
  nth_error (heap w) self = Some g ->
  _report g = VDict d ->
  truthy (VDict d) = true ->
  (forall v, lookup (KStr attr) d = Some v ->
     Galaxy___getattr__ request self attr w = (Ok v, w))
  /\ (lookup (KStr attr) d = None ->
      Galaxy___getattr__ request self attr w = (Err (KeyError (VStr attr)), w)).
Proof.
  intros Hg Hr Ht.
  assert (Ht' : truthy (_report g) = true) by (rewrite Hr; exact Ht).
  pose proof (Galaxy_report_held request self w g Hg Ht') as Hrep.
  rewrite Hr in Hrep.
  unfold Galaxy___getattr__. rewrite (bind_Ok _ _ _ _ _ Hrep).
  unfold lift. simpl.
  split; [intros v H|intros H]; rewrite H; reflexivity.
Qed.

(** [report] hands back a report exactly when the Galaxy already holds a
    truthy one, and then that very report with the world untouched.  A held
    report that is falsy, such as an empty mapping, counts as not fetched. *)
Theorem report_returns_iff_held (self : nat) (w : world) (g : GalaxyObj) :
  nth_error (heap w) self = Some g ->
  ((exists r w', Galaxy_report request self w = (Ok r, w'))
   <-> truthy (_report g) = true)
  /\ (truthy (_report g) = true ->
      Galaxy_report request self w = (Ok (_report g), w)).
Proof.
  intros Hg. split; [split|].
  - intros (r & w' & H).
    destruct (truthy (_report g)) eqn:Ht; [reflexivity|].
    rewrite (Galaxy_report_unheld request self w g Hg Ht) in H. discriminate H.
  - intros Ht. exists (_report g), w.
    apply (Galaxy_report_held request self w g Hg Ht).
  - apply (Galaxy_report_held request self w g Hg).
Qed.

Lemma Galaxy_times_held (self : nat) (w : world) (g : GalaxyObj)
    (d : list (key * value)) :
  nth_error (heap w) self = Some g ->
  _report g = VDict d ->
  truthy (VDict d) = true ->
  Galaxy_now request self w = (div_1000 (field d "now"), w)
  /\ Galaxy_start_time request self w = (div_1000 (field d "start_time"), w).
Proof.
  intros Hg Hr Ht.
  assert (Ht' : truthy (_report g) = true) by (rewrite Hr; exact Ht).
  pose proof (Galaxy_report_held request self w g Hg Ht') as Hrep.
  rewrite Hr in Hrep.
  split; unfold Galaxy_now, Galaxy_start_time; rewrite (bind_Ok _ _ _ _ _ Hrep);
    unfold bind, lift; rewrite obj_getattr_field by reflexivity; reflexivity.
Qed.

(** [now] and [start_time] divide what the report stores by 1000.0 and do
    not convert it first: a stored integer within the range of floats gives
    the quotient, while a timestamp stored as a string, or [None], raises
    [TypeError].  The world is not touched. *)
Theorem times_divide_without_coercion (self : nat) (w : world) (g : GalaxyObj)
    (d : list (key * value)) :
  nth_error (heap w) self = Some g ->
  _report g = VDict d ->
  truthy (VDict d) = true ->
  (forall ms, field d "now" = VInt ms -> is_infinite (float_of_Z ms) = false ->
     Galaxy_now request self w = (Ok (fdiv (float_of_Z ms) (float_of_Z 1000)), w))
  /\ (forall ms, field d "start_time" = VInt ms -> is_infinite (float_of_Z ms) = false ->
      Galaxy_start_time request self w
      = (Ok (fdiv (float_of_Z ms) (float_of_Z 1000)), w))
  /\ ((exists s, field d "now" = VStr s) \/ field d "now" = VNone ->
      Galaxy_now request self w = (Err TypeError, w))
  /\ ((exists s, field d "start_time" = VStr s) \/ field d "start_time" = VNone ->
      Galaxy_start_time request self w = (Err TypeError, w)).
Proof.
  intros Hg Hr Ht.
  destruct (Galaxy_times_held self w g d Hg Hr Ht) as [E1 E2].
  rewrite E1, E2. repeat split.
  - intros ms Hf Hfin. rewrite Hf. simpl. rewrite Hfin. reflexivity.
  - intros ms Hf Hfin. rewrite Hf. simpl. rewrite Hfin. reflexivity.
  - intros [[s Hf]|Hf]; rewrite Hf; reflexivity.
  - intros [[s Hf]|Hf]; rewrite Hf; reflexivity.
Qed.

End MemberFacts.

(** ** Attributes of Fleet and Star *)

Section AttributeFacts.

Variable float_of_str : string -> option spec_float.

(** The owner of a Star: [None] for an unowned star, whose stored [puid] is
    -1; for any other stored integer the property raises [NameError],
    because the class [Player] is defined nowhere.  The owner of a Fleet
    raises it always. *)
Theorem owner_of_star_and_fleet (self : entity) (d : list (key * value)) (puid : Z) :
  data self = VDict d ->
  lookup (KStr "puid") d = Some (VInt puid) ->
  (puid = -1 -> Star_player self = Ok VNone)
  /\ (puid <> -1 -> Star_player self = Err (NameError "Player"))
  /\ Fleet_player self = Err (NameError "Player").
Proof.
  intros Hd Hp. unfold Star_player. rewrite Hd.
  rewrite obj_getattr_field by reflexivity. unfold field. rewrite Hp.
  cbn [rbind py_eq_int]. repeat split.
  - intros ->. reflexivity.
  - intros Hne. destruct (Z.eqb_spec puid (-1)); [contradiction|reflexivity].
Qed.

(** The waypoints of a Fleet: the empty list when the stored path [p] is
    empty; with any waypoint in the path the property raises [NameError] on
    [star_id], a name the comprehension never binds. *)
Theorem waypoints_only_when_empty (self : entity) (d : list (key * value))
    (p : list value) :
  data self = VDict d ->
  lookup (KStr "p") d = Some (VList p) ->
  (p = [] -> Fleet_waypoints self = Ok (VList []))
  /\ (p <> [] -> Fleet_waypoints self = Err (NameError "star_id")).
Proof.
  intros Hd Hp. unfold Fleet_waypoints. rewrite Hd.
  rewrite obj_getattr_field by reflexivity. unfold field. rewrite Hp.
  cbn [rbind py_iter]. split.
  - intros ->. reflexivity.
  - intros Hne. destruct p as [|star rest]; [contradiction|reflexivity].
Qed.

(** No alias works: for either class and every name of its alias table,
    reading the alias on an object of the class raises [NameError] on
    [aliases], whatever the object's data. *)
Theorem every_alias_raises (depth : nat) (self : entity) (name : string) :
  In name (alias_names (e_class self)) ->
  getattr float_of_str (S depth) self name = Err (NameError "aliases").
Proof.
  intros H. apply getattr_undefined.
  destruct self as [[] g dd]; simpl in H;
    repeat (destruct H as [<-|H]; [reflexivity|]); contradiction.
Qed.

(** The float accessors win over the data: for [x] and [y] of a Star and
    [x], [y], [lx], [ly] of a Fleet, a coordinate stored as a string is
    handed back as the float the string denotes, never as the string, and a
    string that denotes no number raises [ValueError]. *)
Theorem float_accessors_coerce (depth : nat) (self : entity)
    (d : list (key * value)) (name s : string) :
  In name (float_accessors (e_class self)) ->
  data self = VDict d ->
  lookup (KStr name) d = Some (VStr s) ->
  getattr float_of_str (S depth) self name
  = match float_of_str s with
    | Some f => Ok (VFloat f)
    | None => Err ValueError
    end.
Proof.
  intros H Hd Hl. destruct self as [[] g dd]; simpl in Hd; subst dd; simpl in H;
    repeat (destruct H as [<-|H];
            [simpl; unfold Fleet_x, Fleet_y, Fleet_lx, Fleet_ly, Star_x, Star_y, as_float;
             simpl; rewrite Hl; simpl; destruct (float_of_str s); reflexivity|]);
    contradiction.
Qed.

Lemma fsub_diag (x : spec_float) :
  is_finite x = true -> fsub x x = S754_zero false.
Proof.
  destruct x as [[]|s| |s m e]; try discriminate; intros _; try reflexivity.
  unfold fsub, SFsub. rewrite Z.sub_diag. reflexivity.
Qed.

(** A star at a finite position is at distance 0.0 from itself, range
    level 1. *)
Theorem distance_to_self (a : entity) (x y : spec_float) :
  e_class a = Star ->
  Star_x float_of_str a = Ok x ->
  Star_y float_of_str a = Ok y ->
  is_finite x = true ->
  is_finite y = true ->
  Star_distance float_of_str a a false = Ok (VFloat (S754_zero false))
  /\ Star_distance float_of_str a a true = Ok (VInt 1).
Proof.
  intros Ha Hx Hy Fx Fy.
  assert (Hcx : coord_x float_of_str a = Ok x) by (unfold coord_x; rewrite Ha; exact Hx).
  assert (Hcy : coord_y float_of_str a = Ok y) by (unfold coord_y; rewrite Ha; exact Hy).
  rewrite !(Star_distance_as_euclidean float_of_str a a x y x y _ Hx Hy Hcx Hcy).
  unfold euclidean. rewrite (fsub_diag x Fx), (fsub_diag y Fy).
  split; reflexivity.
Qed.

Lemma fsqrt_unsigned (x : spec_float) : unsigned x -> unsigned (fsqrt x).
Proof.
  destruct x as [s|s| |s m e]; simpl; intros H; subst; try reflexivity; try exact I.
  destruct (SFsqrt_core_binary prec emax (Z.pos m) e) as [[mz ez] lz].
  apply binary_round_aux_unsigned.
Qed.

(** A raw distance is never negative: what [distance] hands back with
    [as_level] false is a float with the sign [+], or NaN. *)
Theorem distance_not_negative (a b : entity) (dist : spec_float) :
  Star_distance float_of_str a b false = Ok (VFloat dist) ->
  unsigned dist /\ SFltb dist (S754_zero false) = false.
Proof.
  unfold Star_distance.
  destruct (Star_x float_of_str a) as [sx|e]; [|discriminate].
  destruct (coord_x float_of_str b) as [ox|e]; [|discriminate]. cbn [rbind].
  destruct (py_pow2 (fsub sx ox)) as [dx2|e] eqn:Ex; [|discriminate]. cbn [rbind].
  destruct (Star_y float_of_str a) as [sy|e]; [|discriminate].
  destruct (coord_y float_of_str b) as [oy|e]; [|discriminate]. cbn [rbind].
  destruct (py_pow2 (fsub sy oy)) as [dy2|e] eqn:Ey; [|discriminate]. cbn [rbind].
  apply py_pow2_Ok in Ex, Ey.
  assert (U : unsigned (fadd dx2 dy2)).
  { apply fadd_unsigned; [rewrite Ex|rewrite Ey]; apply fmul_self_unsigned. }
  rewrite (math_sqrt_unsigned _ U). cbn [rbind negb].
  intros H. injection H as <-.
  pose proof (fsqrt_unsigned _ U) as Us. split; [exact Us|].
  destruct (fsqrt (fadd dx2 dy2)) as [s|s| |s m e]; simpl in Us; subst; reflexivity.
Qed.

End AttributeFacts.

(** ** No operation reaches the network *)

Lemma fetches_app (t1 t2 : list event) :
  fetches (t1 ++ t2) = (fetches t1 + fetches t2)%nat.
Proof.
  induction t1 as [|[g|path kwargs] t1 IH]; simpl; [reflexivity|exact IH|].
  rewrite IH. reflexivity.
Qed.

Lemma quiet_lift {A : Type} (r : result A) : quiet (lift r).
Proof. intros w. exists [], []. simpl. rewrite !app_nil_r. auto. Qed.

Lemma quiet_ret {A : Type} (a : A) : quiet (ret a).
Proof. intros w. exists [], []. simpl. rewrite !app_nil_r. auto. Qed.

Lemma quiet_bind {A B : Type} (m : M A) (k : A -> M B) :
  quiet m -> (forall a, quiet (k a)) -> quiet (bind m k).
Proof.
  intros Hm Hk w. destruct (Hm w) as (l1 & t1 & H1 & H2 & H3).
  unfold bind. destruct (m w) as [[a|e] w1]; simpl in H1, H2.
  - destruct (Hk a w1) as (l2 & t2 & K1 & K2 & K3).
    exists (l1 ++ l2)%list, (t1 ++ t2)%list.
    rewrite K1, K2, H1, H2, !app_assoc, fetches_app, H3, K3. auto.
  - exists l1, t1. auto.
Qed.

Lemma quiet_mapM {A B : Type} (f : A -> M B) (xs : list A) :
  (forall x, quiet (f x)) -> quiet (mapM f xs).
Proof.
  intros Hf. induction xs as [|x xs IH]; simpl.
  - apply quiet_ret.
  - apply quiet_bind; [apply Hf|]. intros b.
    apply quiet_bind; [apply IH|]. intros bs. apply quiet_ret.
Qed.

Lemma quiet_get_report (self : nat) : quiet (get_report self).
Proof.
  intros w. exists [], []. unfold get_report.
  destruct (nth_error (heap w) self); simpl; rewrite !app_nil_r; auto.
Qed.

Lemma quiet_alloc (g : GalaxyObj) : quiet (alloc g).
Proof. intros w. exists [g], []. simpl. rewrite app_nil_r. auto. Qed.

Section QuietFacts.

Variable request : list event -> string -> list (string * value) -> result value.

Lemma quiet_update_state (self : nat) : quiet (Galaxy_update_state request self).
Proof.
  intros w. exists [], [CallUpdateState self].
  rewrite Galaxy_update_state_NameError. simpl. rewrite app_nil_r. auto.
Qed.

Lemma quiet_report (self : nat) : quiet (Galaxy_report request self).
Proof.
  unfold Galaxy_report.
  apply quiet_bind; [apply quiet_get_report|]. intros r.
  apply quiet_bind.
  - destruct (negb (truthy r)); [apply quiet_update_state|apply quiet_ret].
  - intros _. apply quiet_get_report.
Qed.

Lemma quiet_HasGalaxy_init (kwargs : list (string * value)) :
  quiet (_HasGalaxy___init__ kwargs).
Proof.
  unfold _HasGalaxy___init__.
  destruct (has_key "game_number" kwargs || has_key "cookies" kwargs).
  - apply quiet_bind; [apply quiet_lift|]. intros gn.
    apply quiet_bind; [apply quiet_lift|]. intros ck.
    apply quiet_bind; [apply quiet_lift|]. intros _.
    apply quiet_alloc.
  - apply quiet_lift.
Qed.

Lemma quiet_report_of (g : value) : quiet (report_of request g).
Proof. destruct g; simpl; try apply quiet_lift. apply quiet_report. Qed.

Ltac quiet_step :=
  first
    [ apply quiet_lift
    | apply quiet_ret
    | apply quiet_report
    | apply quiet_report_of
    | apply quiet_HasGalaxy_init
    | apply quiet_bind; [|intros ?]
    | match goal with
      | |- quiet (if ?c then _ else _) => destruct c
      | |- quiet (let (_, _) := ?p in _) => destruct p
      end ].

Lemma quiet_Star_init (star_id : value) (kwargs : list (string * value)) :
  quiet (Star___init__ request star_id kwargs).
Proof. unfold Star___init__. repeat quiet_step. Qed.

Lemma quiet_Fleet_init (fleet_id : value) (kwargs : list (string * value)) :
  quiet (Fleet___init__ request fleet_id kwargs).
Proof. unfold Fleet___init__. repeat quiet_step. Qed.

Lemma quiet_players (self : nat) : quiet (Galaxy_players request self).
Proof.
  unfold Galaxy_players. repeat quiet_step.
  apply quiet_mapM. intros x. apply quiet_lift.
Qed.

(** Nothing in the module reaches the network.  Whatever the world, every
    method of [Galaxy] and both constructors leave the Galaxy objects that
    exist as they are, reports included, add at most new Galaxy objects,
    and never call [request]: the one call site, in [update_state], comes
    after the names that fail to resolve. *)
Theorem module_never_requests (self : nat) (attr : string) (entity_id : value)
    (kwargs : list (string * value)) :
  quiet (Galaxy_update_state request self)
  /\ quiet (Galaxy_report request self)
  /\ quiet (Galaxy___getattr__ request self attr)
  /\ quiet (Galaxy_admin request self)
  /\ quiet (Galaxy_fleets request self)
  /\ quiet (Galaxy_game_state request self)
  /\ quiet (Galaxy_now request self)
  /\ quiet (Galaxy_player request self)
  /\ quiet (Galaxy_players request self)
  /\ quiet (Galaxy_stars request self)
  /\ quiet (Galaxy_start_time request self)
  /\ quiet (Galaxy_turn_based request self)
  /\ quiet (Star___init__ request entity_id kwargs)
  /\ quiet (Fleet___init__ request entity_id kwargs).
Proof.
  repeat split.
  - apply quiet_update_state.
  - apply quiet_report.
  - unfold Galaxy___getattr__. repeat quiet_step.
  - unfold Galaxy_admin. apply quiet_bind; [apply quiet_players|]. intros ps.
    repeat quiet_step.
  - unfold Galaxy_fleets. repeat quiet_step.
    apply quiet_mapM. intros item. repeat quiet_step.
  - unfold Galaxy_game_state. repeat quiet_step.
  - unfold Galaxy_now. repeat quiet_step.
  - unfold Galaxy_player. apply quiet_bind; [apply quiet_players|]. intros ps.
    repeat quiet_step.
  - apply quiet_players.
  - unfold Galaxy_stars. repeat quiet_step.
    apply quiet_mapM. intros i. repeat quiet_step.
  - unfold Galaxy_start_time. repeat quiet_step.
  - unfold Galaxy_turn_based. repeat quiet_step.
  - apply quiet_Star_init.
  - apply quiet_Fleet_init.
Qed.

End QuietFacts.

(** ** A Galaxy without a report *)

Section UnheldFacts.

Variable request : list event -> string -> list (string * value) -> result value.

(** On a Galaxy that holds no report, or a falsy one, every member that
    reads the report raises [NameError] on [game_number], having entered
    [update_state] once and changed nothing else; so does building a Star or
    a Fleet on that Galaxy. *)
Theorem members_raise_without_report (self : nat) (w : world) (g : GalaxyObj)
    (attr : string) (entity_id : value) :
  nth_error (heap w) self = Some g ->
  truthy (_report g) = false ->
  let failed {A : Type} (m : M A) :=
    m w = (Err (NameError "game_number"),
           mkWorld (heap w) (trace w ++ [CallUpdateState self])) in
  failed (Galaxy___getattr__ request self attr)
  /\ failed (Galaxy_admin request self)
  /\ failed (Galaxy_fleets request self)
  /\ failed (Galaxy_game_state request self)
  /\ failed (Galaxy_now request self)
  /\ failed (Galaxy_player request self)
  /\ failed (Galaxy_players request self)
  /\ failed (Galaxy_stars request self)
  /\ failed (Galaxy_start_time request self)
  /\ failed (Galaxy_turn_based request self)
  /\ failed (Star___init__ request entity_id [("galaxy", VGalaxy self)])
  /\ failed (Fleet___init__ request entity_id [("galaxy", VGalaxy self)]).
Proof.
  intros Hg Ht failed. unfold failed.
  pose proof (Galaxy_report_unheld request self w g Hg Ht) as Hrep.
  assert (Hp : Galaxy_players request self w
               = (Err (NameError "game_number"),
                  mkWorld (heap w) (trace w ++ [CallUpdateState self])))
    by (unfold Galaxy_players; apply (bind_Err _ _ _ _ _ Hrep)).
  repeat split;
    try (unfold Galaxy___getattr__, Galaxy_fleets, Galaxy_game_state, Galaxy_now,
           Galaxy_stars, Galaxy_start_time, Galaxy_turn_based;
         apply (bind_Err _ _ _ _ _ Hrep)).
  - unfold Galaxy_admin. apply (bind_Err _ _ _ _ _ Hp).
  - unfold Galaxy_player. apply (bind_Err _ _ _ _ _ Hp).
Qed.

End UnheldFacts.

(** ** The further properties at sample inputs *)

Lemma HasGalaxy_init_arguments_witness :
  _HasGalaxy___init__ [("game_number", VInt 1)] empty_world
  = (Err (KeyError (VStr "cookies")), empty_world)
  /\ _HasGalaxy___init__ (("galaxy", VGalaxy 5) :: credentials) empty_world
     = (Ok (VGalaxy 0), new_galaxy_world).
Proof.
  split.
  - apply (proj1 (HasGalaxy_init_arguments [("game_number", VInt 1)] empty_world));
      reflexivity.
  - apply (proj2 (proj2 (proj2 (HasGalaxy_init_arguments
             (("galaxy", VGalaxy 5) :: credentials) empty_world))));
      reflexivity.
Defined.

Lemma construction_from_galaxy_witness :
  Star___init__ sample_request (VInt 1) [("galaxy", VGalaxy 0)] sample_world
  = (Ok (mkEntity Star (VGalaxy 0) (sample_star "3" "4" "0")), sample_world).
Proof.
  apply (proj1 (construction_from_galaxy sample_request [("galaxy", VGalaxy 0)]
                  (VInt 1) 0 sample_world _ _
                  eq_refl eq_refl eq_refl eq_refl eq_refl eq_refl)).
Defined.

Lemma fleet_not_visible_witness :
  Fleet___init__ sample_request (VInt 8) [("galaxy", VGalaxy 0)] sample_world
  = (Err (KeyError (VInt 8)), sample_world).
Proof.
  apply (fleet_not_visible sample_request 8 0 sample_world _ _ _
           eq_refl eq_refl eq_refl eq_refl).
Defined.

Lemma star_index_bounds_witness :
  Star___init__ sample_request (VInt (-1)) [("galaxy", VGalaxy 0)] sample_world
  = Star___init__ sample_request (VInt 1) [("galaxy", VGalaxy 0)] sample_world
  /\ Star___init__ sample_request (VInt 2) [("galaxy", VGalaxy 0)] sample_world
     = (Err IndexError, sample_world).
Proof.
  split.
  - apply (proj1 (proj2 (star_index_bounds sample_request 0 sample_world _ _ _
                           eq_refl eq_refl eq_refl)) (-1)).
    simpl. lia.
  - apply (proj2 (proj2 (star_index_bounds sample_request 0 sample_world _ _ _
                           eq_refl eq_refl eq_refl)) 2).
    simpl. lia.
Defined.

Lemma stars_dense_witness :
  Galaxy_stars sample_request 0 sample_world
  = (Ok [mkEntity Star (VGalaxy 0) (sample_star "0" "0" "1");
         mkEntity Star (VGalaxy 0) (sample_star "3" "4" "0")], sample_world).
Proof.
  apply (stars_dense sample_request 0 sample_world _ _ _ eq_refl eq_refl eq_refl).
Defined.

Lemma players_only_when_empty_witness :
  Galaxy_players sample_request 0 quiet_world = (Err (NameError "Player"), quiet_world).
Proof.
  apply (proj2 (players_only_when_empty sample_request 0 quiet_world _ _ _
                  eq_refl eq_refl eq_refl)).
  discriminate.
Defined.

Lemma fleets_only_when_empty_witness :
  Galaxy_fleets sample_request 0 quiet_world = (Ok [], quiet_world).
Proof.
  apply (proj1 (fleets_only_when_empty sample_request 0 quiet_world _ _ _
                  eq_refl eq_refl eq_refl)).
  reflexivity.
Defined.

Lemma galaxy_field_forwarding_witness :
  Galaxy___getattr__ sample_request 0 "turn_based" sample_world = (Ok (VInt 1), sample_world)
  /\ Galaxy___getattr__ sample_request 0 "tick" sample_world
     = (Err (KeyError (VStr "tick")), sample_world).
Proof.
  split.
  - apply (proj1 (galaxy_field_forwarding sample_request 0 sample_world _ _ "turn_based"
                    eq_refl eq_refl eq_refl)).
    reflexivity.
  - apply (proj2 (galaxy_field_forwarding sample_request 0 sample_world _ _ "tick"
                    eq_refl eq_refl eq_refl)).
    reflexivity.
Defined.

Lemma report_returns_iff_held_witness :
  Galaxy_report sample_request 0 sample_world = (Ok sample_report, sample_world).
Proof.
  apply (proj2 (report_returns_iff_held sample_request 0 sample_world _ eq_refl)).
  reflexivity.
Defined.

Lemma times_divide_without_coercion_witness :
  Galaxy_now sample_request 0 quiet_world
  = (Ok (fdiv (float_of_Z 1620000000000) (float_of_Z 1000)), quiet_world)
  /\ Galaxy_start_time sample_request 0 quiet_world = (Err TypeError, quiet_world).
Proof.
  split.
  - apply (proj1 (times_divide_without_coercion sample_request 0 quiet_world _ _
                    eq_refl eq_refl eq_refl) 1620000000000); reflexivity.
  - apply (proj2 (proj2 (proj2 (times_divide_without_coercion sample_request 0
                    quiet_world _ _ eq_refl eq_refl eq_refl)))).
    left. exists "1620000000000". reflexivity.
Defined.

(** The spec's timestamp: 1620000000000 ms is 1620000000.0 s. *)
Example now_1620000000000 :
  fdiv (float_of_Z 1620000000000) (float_of_Z 1000) = float_of_Z 1620000000.
Proof. vm_compute. reflexivity. Qed.

Lemma owner_of_star_and_fleet_witness :
  Star_player (mkEntity Star (VGalaxy 0) (sample_star "0" "0" "1")) = Ok VNone.
Proof.
  apply (proj1 (owner_of_star_and_fleet
                  (mkEntity Star (VGalaxy 0) (sample_star "0" "0" "1")) _ (-1)
                  eq_refl eq_refl)).
  reflexivity.
Defined.

Lemma waypoints_only_when_empty_witness :
  Fleet_waypoints sample_fleet = Err (NameError "star_id").
Proof.
  apply (proj2 (waypoints_only_when_empty sample_fleet _ _ eq_refl eq_refl)).
  discriminate.
Defined.

Lemma every_alias_raises_witness :
  getattr sample_float_of_str 1 sample_fleet "ships" = Err (NameError "aliases").
Proof.
  apply (every_alias_raises sample_float_of_str 0 sample_fleet "ships").
  simpl. auto.
Defined.

Lemma float_accessors_coerce_witness :
  getattr sample_float_of_str 1 sample_fleet "lx"
  = Ok (VFloat (fdiv (float_of_Z 3) (float_of_Z 2))).
Proof.
  refine (float_accessors_coerce sample_float_of_str 0 sample_fleet _ "lx" "1.5"
            _ eq_refl eq_refl).
  simpl. auto.
Defined.

Lemma distance_to_self_witness :
  Star_distance no_float_of_str (star_at 3 4) (star_at 3 4) false
  = Ok (VFloat (S754_zero false)).
Proof.
  apply (proj1 (distance_to_self no_float_of_str (star_at 3 4)
                  (float_of_Z 3) (float_of_Z 4)
                  eq_refl eq_refl eq_refl eq_refl eq_refl)).
Defined.

Lemma distance_not_negative_witness :
  Star_distance no_float_of_str (star_at 0 0) (star_at 3 4) false
  = Ok (VFloat (float_of_Z 5))
  /\ unsigned (float_of_Z 5).
Proof.
  split; [reflexivity|].
  apply (proj1 (distance_not_negative no_float_of_str (star_at 0 0) (star_at 3 4)
                  (float_of_Z 5) eq_refl)).
Defined.

Lemma members_raise_without_report_witness :
  Galaxy_stars sample_request 0 new_galaxy_world
  = (Err (NameError "game_number"),
     mkWorld [mkGalaxy (VInt 1) (VStr "c") VNone] [CallUpdateState 0]).
Proof.
  apply (members_raise_without_report sample_request 0 new_galaxy_world _
           "stars" (VInt 0) eq_refl eq_refl).
Defined.
